(** * BaSiCs: the Laplacian-of-Gaussian blob detector of [basics/log.py]

    A shallow embedding of [_blob_overlap], [_pixel_overlap],
    [overlap_metric], [_min_merge_overlap], [merge_to_ellipse],
    [_merge_blobs], [_prune_blobs] and [blob_log], followed by the
    properties of the design document that concern them.  The finder of
    [basics/bubble_segment2D.py] that calls them and the column checks
    of [basics/bubble_catalog.py] come after the detector.

    Numbers are IEEE binary64 values (the kernel's primitive floats), as
    in numpy's float64 and Python's float: NaN, the infinities and the
    signed zeros behave as they do at run time.  A detection is a numpy
    row, a list of floats indexed by position; indexing past the end
    raises [IndexError] as in Python.  Exceptions are values of [exn]
    threaded through the [result] monad. *)

From Stdlib Require Import List ZArith Bool String Floats Lia Arith PeanoNat.
From Stdlib Require Import Sorted Permutation.
From Stdlib Require Import DecimalString.
From Stdlib Require Uint63.
Import ListNotations.

Set Warnings "-inexact-float".

(* ================================================================== *)
(** ** Python run-time: exceptions and the error monad *)

Module Py.

(** The exception classes the modelled code can raise, each with its
    message. *)
Inductive exn : Type :=
| ValueError (msg : string)
| IndexError (msg : string)
| UnboundLocalError (msg : string)
| OverflowError (msg : string)
| ZeroDivisionError (msg : string).

Inductive result (A : Type) : Type :=
| Ok (a : A)
| Raise (e : exn).
Arguments Ok {A} a.
Arguments Raise {A} e.

Definition bind {A B : Type} (c : result A) (k : A -> result B) : result B :=
  match c with
  | Ok a => k a
  | Raise e => Raise e
  end.

(** [for x in xs: st = f(st, x)], stopping at the first exception. *)
Fixpoint foldM {S X : Type} (f : S -> X -> result S) (st : S) (xs : list X)
  : result S :=
  match xs with
  | [] => Ok st
  | x :: xs' => bind (f st x) (fun st' => foldM f st' xs')
  end.

(** [[f(x) for x in xs]], stopping at the first exception. *)
Fixpoint mapM {X Y : Type} (f : X -> result Y) (xs : list X)
  : result (list Y) :=
  match xs with
  | [] => Ok []
  | x :: xs' =>
      bind (f x) (fun y => bind (mapM f xs') (fun ys => Ok (y :: ys)))
  end.

(** [[x for x in xs if p(x)]], stopping at the first exception. *)
Fixpoint filterM {X : Type} (p : X -> result bool) (xs : list X)
  : result (list X) :=
  match xs with
  | [] => Ok []
  | x :: xs' =>
      bind (p x) (fun keep =>
      bind (filterM p xs') (fun ys => Ok (if keep then x :: ys else ys)))
  end.

(** [str(n)] for a non-negative integer. *)
Definition str_of_nat (n : nat) : string :=
  NilEmpty.string_of_uint (Nat.to_uint n).

(** A [str] object.  [interned] tells whether the object is the one
    CPython keeps in its table of interned strings: every literal of
    the program that looks like an identifier is, a string built at
    run time (read from a file, joined, sliced) is not.  Two interned
    strings with the same characters are the same object. *)
Record str : Type := mk_str { chars : string; interned : bool }.

(** A string literal of the program text. *)
Definition lit (s : string) : str := mk_str s true.

(** [s is 'literal']: object identity with an interned literal. *)
Definition str_is (s : str) (literal : string) : bool :=
  interned s && String.eqb (chars s) literal.

End Py.
Import Py.

Declare Scope py_scope.
Delimit Scope py_scope with py.
Notation "x <- c ;; k" := (bind c (fun x => k))
  (at level 61, c at next level, right associativity) : py_scope.
Notation "' pat <- c ;; k" := (bind c (fun x => match x with pat => k end))
  (at level 61, pat pattern, c at next level, right associativity) : py_scope.
Open Scope py_scope.
Open Scope float_scope.

(* ================================================================== *)
(** ** numpy rows and float64 helpers *)

Module Np.

(** A row of a 2-d float64 array. *)
Definition row : Type := list float.

(** A 2-d float64 array, as the list of its rows. *)
Definition ndarray : Type := list row.

Definition index_error (i size : nat) : exn :=
  IndexError ("index " ++ str_of_nat i ++ " is out of bounds for axis 0 with size "
              ++ str_of_nat size)%string.

(** [b[i]] for [i >= 0]. *)
Definition row_get (b : row) (i : nat) : result float :=
  match nth_error b i with
  | Some v => Ok v
  | None => Raise (index_error i (List.length b))
  end.

(** [b[i] = v] for [i >= 0]: in place in Python, a new row here. *)
Fixpoint row_set (b : row) (i : nat) (v : float) : result row :=
  match b, i with
  | [], _ => Raise (index_error i 0)
  | _ :: t, O => Ok (v :: t)
  | h :: t, S i' =>
      match row_set t i' v with
      | Ok t' => Ok (h :: t')
      | Raise _ => Raise (index_error i (List.length b))
      end
  end.

(** [a[k]] of a 2-d array, for an index known to be in range. *)
Definition arr_row (a : ndarray) (k : nat) : row := nth k a [].

(** [a[k] = r] of a 2-d array (nothing happens out of range; the model
    only writes rows it has just read). *)
Fixpoint arr_set (a : ndarray) (k : nat) (r : row) : ndarray :=
  match a, k with
  | [], _ => []
  | _ :: t, O => r :: t
  | h :: t, S k' => h :: arr_set t k' r
  end.

(** [math.pi], [np.pi]. *)
Definition pi : float := 0x1.921fb54442d18p+1.

(** The literal [1e-5]. *)
Definition touching_eps : float := 0x1.4f8b588e368f1p-17.

(** [x != y] on floats: true as soon as one side is NaN. *)
Definition fneq (x y : float) : bool := negb (x =? y).

(** [x > y] and [x >= y]. *)
Definition fgt (x y : float) : bool := y <? x.
Definition fge (x y : float) : bool := y <=? x.

(** The builtins [min(a, b)] and [max(a, b)]: the first argument wins
    unless the second is strictly better. *)
Definition py_min (a b : float) : float := if b <? a then b else a.
Definition py_max (a b : float) : float := if a <? b then b else a.

(** [np.clip(x, lo, hi)]; a NaN passes through. *)
Definition np_clip (x lo hi : float) : float :=
  if x <? lo then lo else if hi <? x then hi else x.

(** [x ** 2] on a numpy float64: the square, overflowing to infinity. *)
Definition np_sq (x : float) : float := x * x.

(** [x ** 2] on a Python float: the square, except that a finite base
    whose square overflows raises [OverflowError]. *)
Definition py_sq (x : float) : result float :=
  if is_finite x && is_infinity (x * x)
  then Raise (OverflowError "(34, 'Numerical result out of range')")
  else Ok (x * x).

(** [float(z)] of an integer below [2^63] in absolute value (pixel
    coordinates and pixel counts). *)
Definition float_of_Z (z : Z) : float :=
  match z with
  | Z0 => 0
  | Zpos p => of_uint63 (Uint63.of_Z (Zpos p))
  | Zneg p => - of_uint63 (Uint63.of_Z (Zpos p))
  end.

End Np.
Import Np.

(* ================================================================== *)
(** ** The code of [basics/log.py] *)

Section Log.

(** The C library behind [math.hypot], [numpy.arccos] and
    [numpy.arctan].  [math.hypot] raises [OverflowError] when its
    result overflows; the numpy functions return NaN or an infinity
    instead of raising. *)
Variable hypot : float -> float -> result float.
Variable arccos : float -> float.
Variable arctan : float -> float.

(** astropy's [Ellipse2D(amplitude, x_0, y_0, a, b, theta).bounding_box]:
    [((y_min, y_max), (x_min, x_max))]. *)
Variable Ellipse2D_bounding_box :
  float -> float -> float -> float -> float -> (float * float) * (float * float).

(** The rasterisation of [_pixel_overlap]: the [np.meshgrid] of the two
    [np.arange] axes over [ybounds] and [xbounds] padded by [grid_space],
    on which [Ellipse2D.evaluate] is called for each ellipse
    [(x_0, y_0, a, b, theta)]; the result is
    [(overlap_area, ellip1_area, ellip2_area)], the three pixel counts. *)
Variable raster_areas :
  float -> float * float -> float * float ->
  float * float * float * float * float ->
  float * float * float * float * float -> Z * Z * Z.

Definition _blob_overlap (blob1 blob2 : row) : result float :=
  r1 <- row_get blob1 2 ;;
  r2 <- row_get blob2 2 ;;
  y1 <- row_get blob1 0 ;;
  y2 <- row_get blob2 0 ;;
  x1 <- row_get blob1 1 ;;
  x2 <- row_get blob2 1 ;;
  d <- hypot (y1 - y2) (x1 - x2) ;;
  if fgt d (r1 + r2) then Ok 0
  else if d =? r1 + r2 then Ok touching_eps
  else if d <=? abs (r1 - r2) then Ok 1
  else
    dd <- py_sq d ;;
    let ratio1 := (dd + np_sq r1 - np_sq r2) / (2 * d * r1) in
    let ratio1 := np_clip ratio1 (-1) 1 in
    let acos1 := arccos ratio1 in
    let ratio2 := (dd + np_sq r2 - np_sq r1) / (2 * d * r2) in
    let ratio2 := np_clip ratio2 (-1) 1 in
    let acos2 := arccos ratio2 in
    let a := - d + r2 + r1 in
    let b := d - r2 + r1 in
    let c := d + r2 - r1 in
    let d' := d + r2 + r1 in
    let area := np_sq r1 * acos1 + np_sq r2 * acos2
                - 0.5 * sqrt (abs (a * b * c * d')) in
    Ok (area / (pi * np_sq (py_min r1 r2))).

(** [grid_space=0.2], the default of [_pixel_overlap]. *)
Definition default_grid_space : float := 0x1.999999999999ap-3.

Definition _pixel_overlap (blob1 blob2 : row) (grid_space : float)
           (return_large_overlap : bool) : result float :=
  s1 <- row_get blob1 2 ;;
  s2 <- row_get blob2 2 ;;
  let '(large_blob, small_blob) :=
    if fgt s1 s2 then (blob1, blob2) else (blob2, blob1) in
  la <- row_get large_blob 2 ;;
  lb <- row_get large_blob 3 ;;
  lt <- row_get large_blob 4 ;;
  let bound1 := Ellipse2D_bounding_box 0 0 la lb lt in
  sx <- row_get small_blob 1 ;;
  lx <- row_get large_blob 1 ;;
  sy <- row_get small_blob 0 ;;
  ly <- row_get large_blob 0 ;;
  sa <- row_get small_blob 2 ;;
  sb <- row_get small_blob 3 ;;
  st <- row_get small_blob 4 ;;
  let bound2 := Ellipse2D_bounding_box (sx - lx) (sy - ly) sa sb st in
  if (snd (fst bound1) <? fst (fst bound2))
     && (snd (snd bound1) <? fst (snd bound2))
  then Ok 0
  else
    let ybounds := (py_min (fst (fst bound1)) (fst (fst bound2)),
                    py_max (snd (fst bound1)) (snd (fst bound2))) in
    let xbounds := (py_min (fst (snd bound1)) (fst (snd bound2)),
                    py_max (snd (snd bound1)) (snd (snd bound2))) in
    let '(overlap_area, ellip1_area, ellip2_area) :=
      raster_areas grid_space ybounds xbounds
                   (0, 0, la, lb, lt) (sx - lx, sy - ly, sa, sb, st) in
    if (ellip2_area <? ellip1_area)%Z then
      if return_large_overlap
      then Ok (float_of_Z overlap_area / float_of_Z ellip1_area)
      else Ok (float_of_Z overlap_area / float_of_Z ellip2_area)
    else
      if return_large_overlap
      then Ok (float_of_Z overlap_area / float_of_Z ellip2_area)
      else Ok (float_of_Z overlap_area / float_of_Z ellip1_area).

Definition _min_merge_overlap (min_dist : float) : float :=
  let term1 := 2 * arccos (min_dist / 2) / pi in
  let term2 := sqrt ((2 - min_dist) * (2 + min_dist)) / (2 * pi) in
  term1 - term2.

(** [ellip[major] != ellip[minor]]. *)
Definition elongated (ellip : row) : result bool :=
  a <- row_get ellip 2 ;;
  b <- row_get ellip 3 ;;
  Ok (fneq a b).

(** [c1 or c2], the second operand evaluated only when the first is
    false. *)
Definition py_or (c1 c2 : result bool) : result bool :=
  v <- c1 ;; if v then Ok true else c2.

Definition overlap_metric (ellip1 ellip2 : row) : result float :=
  noncircular <- py_or (elongated ellip1) (elongated ellip2) ;;
  if noncircular then _pixel_overlap ellip1 ellip2 default_grid_space false
  else
    blob_overlap <- _blob_overlap ellip1 ellip2 ;;
    if blob_overlap =? touching_eps then Ok 0 else Ok blob_overlap.

Definition merge_to_ellipse (blob1 blob2 : row) : result row :=
  y1 <- row_get blob1 0 ;;
  y2 <- row_get blob2 0 ;;
  x1 <- row_get blob1 1 ;;
  x2 <- row_get blob2 1 ;;
  d <- hypot (y1 - y2) (x1 - x2) ;;
  r1 <- row_get blob1 2 ;;
  let pa := arctan ((y1 - y2) / (x1 - x2)) in
  let pa := if pa <? 0 then pa + pi else pa in
  Ok [(y1 + y2) / 2; (x1 + x2) / 2; r1 + d / 2; r1; pa].

(* ---------------------------------------------------------------- *)
(** *** The pairwise overlap matrix *)

(** The pairs [(i, j)], [i < j < n], in the order in which
    [scipy.spatial.distance.pdist] visits them: row by row. *)
Definition upper_pairs (n : nat) : list (nat * nat) :=
  flat_map (fun i => map (fun j => (i, j)) (seq (S i) (n - S i))) (seq 0 n).

(** [pdist(X, metric=partial(overlap_metric))]: the metric on every
    pair of rows, each pair once. *)
Definition pdist (metric : row -> row -> result float) (X : ndarray)
  : result (list float) :=
  mapM (fun p => metric (arr_row X (fst p)) (arr_row X (snd p)))
       (upper_pairs (List.length X)).

(** Modelled from the spec: [basics.utils.dist_uppertri], which is not
    among the source files.  The design document describes the overlap
    matrix as stored without the diagonal and without duplicating the
    (i,j)/(j,i) pair, an upper-triangular packed form with a mapping
    between a row/column pair and its packed index, so that all pairs
    meeting a threshold can be listed as [(i, j)] index pairs with
    [i < j].  The matrix is the packed values, each with its pair. *)
Definition dist_uppertri (cond_arr : list float) (shape : nat)
  : list ((nat * nat) * float) :=
  combine (upper_pairs shape) cond_arr.

(** The pairs that zipping the two index arrays of [np.where] yields:
    the index pairs whose entry satisfies the mask, in row-major
    order. *)
Definition np_where (mask : float -> bool) (dist_arr : list ((nat * nat) * float))
  : list (nat * nat) :=
  map fst (filter (fun e => mask (snd e)) dist_arr).

(* ---------------------------------------------------------------- *)
(** *** Pruning *)

(** [blobs_array[:, slicer]] on one row: [slice(0, -2)] when
    [use_shell_fraction], the whole row otherwise. *)
Definition slicer (use_shell_fraction : bool) (b : row) : row :=
  if use_shell_fraction then firstn (List.length b - 2) b else b.

Definition prune_overlaps (overlap : float) (cond_arr : list float) (n : nat)
  : list (nat * nat) :=
  np_where (fun v => fge v overlap) (dist_uppertri cond_arr n).

(** The state of the loop of [_prune_blobs]: the list [remove_blobs] and
    the local variable [cond], unbound until it is first assigned. *)
Definition prune_state : Type := list nat * option bool.

Definition cond_unbound : exn :=
  UnboundLocalError "local variable 'cond' referenced before assignment".

Definition prune_body (use_shell_fraction : bool) (blobs_array : ndarray)
           (st : prune_state) (posn : nat * nat) : result prune_state :=
  let '(remove_blobs, cond) := st in
  let '(posn1, posn2) := posn in
  let blob1 := arr_row blobs_array posn1 in
  let blob2 := arr_row blobs_array posn2 in
  if use_shell_fraction then
    q1 <- row_get blob1 5 ;;
    q2 <- row_get blob2 5 ;;
    let shell_cond := fgt q1 q2 in
    match cond with
    | None => Raise cond_unbound
    | Some c =>
        Ok (if c then remove_blobs ++ [posn2] else remove_blobs ++ [posn1], cond)
    end
  else
    r1 <- row_get blob1 2 ;;
    r2 <- row_get blob2 2 ;;
    let c := fgt r1 r2 in
    Ok (if c then remove_blobs ++ [posn2] else remove_blobs ++ [posn1], Some c).

(** [k in obj]. *)
Definition mem (k : nat) (obj : list nat) : bool := existsb (Nat.eqb k) obj.

(** [np.delete(a, obj, axis=0)] for indices in range: the rows whose
    index is not listed, in their order. *)
Definition np_delete (a : ndarray) (obj : list nat) : ndarray :=
  map (arr_row a) (filter (fun k => negb (mem k obj)) (seq 0 (List.length a))).

Definition _prune_blobs (blobs_array : ndarray) (overlap : float)
           (use_shell_fraction : bool) : result ndarray :=
  cond_arr <- pdist overlap_metric (map (slicer use_shell_fraction) blobs_array) ;;
  let overlaps := prune_overlaps overlap cond_arr (List.length blobs_array) in
  st <- foldM (prune_body use_shell_fraction blobs_array) ([], None) overlaps ;;
  let remove_blobs := nodup Nat.eq_dec (fst st) in
  Ok (np_delete blobs_array remove_blobs).

(* ---------------------------------------------------------------- *)
(** *** Merging *)

(** [~b] on a Python [bool]: the bitwise complement of the integer,
    [~True = -2] and [~False = -1]. *)
Definition py_invert (b : bool) : Z := if b then (-2)%Z else (-1)%Z.

(** [np.logical_and(a, z)] with an integer second operand: non-zero is
    true. *)
Definition np_logical_and (a : bool) (z : Z) : bool := a && negb (z =? 0)%Z.

(** [a[k][i] = v], through the view [a[k]]. *)
Definition arr_write (a : ndarray) (k i : nat) (v : float) : result ndarray :=
  r <- row_set (arr_row a k) i v ;;
  Ok (arr_set a k r).

Definition merge_overlaps (min_distance_merge : float) (cond_arr : list float)
           (n : nat) : list (nat * nat) :=
  let min_merge_overlap := _min_merge_overlap min_distance_merge in
  let max_merge_overlap := 1 in
  np_where (fun v => fgt v min_merge_overlap && (v <=? max_merge_overlap))
           (dist_uppertri cond_arr n).

(** The state of the loop of [_merge_blobs]: [blobs_array], written
    through the views [blob1] and [blob2], and [merged_blobs]. *)
Definition merge_state : Type := ndarray * ndarray.

Definition merge_body (st : merge_state) (posn : nat * nat) : result merge_state :=
  let '(blobs_array, merged_blobs) := st in
  let '(posn1, posn2) := posn in
  let blob1 := arr_row blobs_array posn1 in
  let blob2 := arr_row blobs_array posn2 in
  is_ellipse <- py_or (elongated blob1) (elongated blob2) ;;
  c1 <- row_get blob1 2 ;;
  c2 <- row_get blob2 2 ;;
  if np_logical_and (c1 =? c2) (py_invert is_ellipse) then
    new_blob <- merge_to_ellipse blob1 blob2 ;;
    let merged_blobs := merged_blobs ++ [new_blob] in
    blobs_array <- arr_write blobs_array posn1 2 (-1) ;;
    blobs_array <- arr_write blobs_array posn1 3 (-1) ;;
    blobs_array <- arr_write blobs_array posn2 2 (-1) ;;
    blobs_array <- arr_write blobs_array posn2 3 (-1) ;;
    Ok (blobs_array, merged_blobs)
  else Ok st.

(** The number of columns of [np.array(rows)]: an empty list gives the
    1-d array of shape [(0,)], which [np.vstack] lifts to shape
    [(1, 0)]. *)
Definition ncols (rows : ndarray) : nat :=
  match rows with
  | [] => 0
  | r :: _ => List.length r
  end.

Definition vstack_mismatch : exn :=
  ValueError "all the input array dimensions except for the concatenation axis must match exactly".

(** [np.vstack([np.array(rows), merged_blobs])] where [merged_blobs]
    has shape [(m, 5)]: the column counts must agree. *)
Definition vstack_merged (rows merged_blobs : ndarray) : result ndarray :=
  if (ncols rows =? 5)%nat then Ok (rows ++ merged_blobs)
  else Raise vstack_mismatch.

(** [b[2] > 0]. *)
Definition still_valid (b : row) : result bool :=
  v <- row_get b 2 ;; Ok (fgt v 0).

Definition _merge_blobs (blobs_array : ndarray) (min_distance_merge : float)
  : result ndarray :=
  cond_arr <- pdist overlap_metric blobs_array ;;
  let overlaps :=
    merge_overlaps min_distance_merge cond_arr (List.length blobs_array) in
  st <- foldM merge_body (blobs_array, []) overlaps ;;
  let '(blobs_array, merged_blobs) := st in
  kept <- filterM still_valid blobs_array ;;
  vstack_merged kept merged_blobs.

(* ---------------------------------------------------------------- *)
(** *** The detector *)

(** A 2-d float image, and the response stack as the list of its
    slices [image_cube[:, :, i]]. *)
Definition image : Type := list (list float).
Definition cube : Type := list image.

(** [skimage.util.img_as_float], [scipy.ndimage.gaussian_laplace] and
    [skimage.feature.peak_local_max(slice, threshold_abs, min_distance,
    threshold_rel=0.0, exclude_border=False)], which returns the integer
    [(y, x)] coordinates of the maxima. *)
Variable img_as_float : image -> image.
Variable gaussian_laplace : image -> float -> image.
Variable peak_local_max : image -> float -> float -> list (Z * Z).

(** [math.log(x, base)], [np.logspace], [np.linspace], [int(x)] and the
    Python float power [x ** i], each of which can raise. *)
Variable math_log : float -> float -> result float.
Variable np_logspace : float -> float -> Z -> result (list float).
Variable np_linspace : float -> float -> Z -> result (list float).
Variable py_int : float -> result Z.
Variable py_pow : float -> Z -> result float.

(** [x / y] on Python floats. *)
Definition py_div (x y : float) : result float :=
  if y =? 0 then Raise (ZeroDivisionError "float division by zero")
  else Ok (x / y).

(** [range(k)]. *)
Definition py_range (k : Z) : list Z := map Z.of_nat (seq 0 (Z.to_nat k)).

Definition scale_choice_error : exn :=
  ValueError "scale_choice must be 'log', 'linear', or 'ratio'.".

Definition weighting_error (n : nat) : exn :=
  IndexError ("weighting must have the same number of elements as scales ("
              ++ str_of_nat n ++ ").")%string.

(** The branch [if sigma_list is None] of [blob_log]. *)
Definition default_sigma_list (scale_choice : str)
           (min_sigma max_sigma : float) (num_sigma : Z) (sigma_ratio : float)
  : result (list float) :=
  if str_is scale_choice "log" then
    start <- math_log min_sigma 10 ;;
    stop <- math_log max_sigma 10 ;;
    np_logspace start stop num_sigma
  else if str_is scale_choice "linear" then
    np_linspace min_sigma max_sigma num_sigma
  else if str_is scale_choice "ratio" then
    q <- py_div max_sigma min_sigma ;;
    l <- math_log q sigma_ratio ;;
    k0 <- py_int l ;;
    let k := (k0 + 1)%Z in
    mapM (fun i => p <- py_pow sigma_ratio i ;; Ok (min_sigma * p)) (py_range k)
  else Raise scale_choice_error.

(** The check of [weighting] against the scales; [np.ones_like] when
    it is [None]. *)
Definition check_weighting (weighting : option (list float))
           (sigma_list : list float) : result (list float) :=
  match weighting with
  | Some w =>
      if negb (List.length w =? List.length sigma_list)%nat
      then Raise (weighting_error (List.length sigma_list))
      else Ok w
  | None => Ok (map (fun _ => 1) sigma_list)
  end.

(** [img * k], element by element. *)
Definition img_scale (img : image) (k : float) : image :=
  map (map (fun v => v * k)) img.

(** [np.dstack(gl_images)]. *)
Definition np_dstack (gl_images : list image) : result cube :=
  match gl_images with
  | [] => Raise (ValueError "need at least one array to concatenate")
  | _ => Ok gl_images
  end.

Definition response_stack (img : image) (sigma_list weighting : list float)
  : result cube :=
  np_dstack
    (map (fun sw => img_scale (img_scale (gaussian_laplace img (fst sw))
                                         (np_sq (fst sw)))
                              (snd sw))
         (combine sigma_list weighting)).

(** [enumerate(xs)]. *)
Definition enumerate {A : Type} (xs : list A) : list (nat * A) :=
  combine (seq 0 (List.length xs)) xs.

(** The loop over the scales and the conversion that follows it: one
    row [(y, x, sigma * sqrt(2), sigma * sqrt(2), 0)] for each maximum
    of each slice, slice after slice. *)
Definition scale_space_maxima (image_cube : cube) (sigma_list : list float)
           (threshold : float) : ndarray :=
  flat_map
    (fun isc =>
       let i := fst isc in
       let scale := snd isc in
       let scale_peaks := peak_local_max (nth i image_cube []) threshold (1.5 * scale) in
       map (fun yx =>
              let r := nth i sigma_list 0 * sqrt 2 in
              [float_of_Z (fst yx); float_of_Z (snd yx); r; r; 0])
           scale_peaks)
    (enumerate sigma_list).

Definition blob_log (img : image) (sigma_list : option (list float))
           (scale_choice : str) (min_sigma max_sigma : float) (num_sigma : Z)
           (threshold overlap sigma_ratio : float)
           (weighting : option (list float)) (merge_overlap_dist : float)
  : result (ndarray * cube) :=
  let img := img_as_float img in
  sigma_list <-
    match sigma_list with
    | None => default_sigma_list scale_choice min_sigma max_sigma num_sigma sigma_ratio
    | Some sl => Ok sl
    end ;;
  weighting <- check_weighting weighting sigma_list ;;
  image_cube <- response_stack img sigma_list weighting ;;
  let local_maxima := scale_space_maxima image_cube sigma_list threshold in
  if (List.length local_maxima =? 0)%nat then Ok (local_maxima, image_cube)
  else
    local_maxima <- _merge_blobs local_maxima merge_overlap_dist ;;
    pruned <- _prune_blobs local_maxima overlap false ;;
    Ok (pruned, image_cube).

End Log.

(* ================================================================== *)
(** ** A reference C library, for evaluating the code on concrete inputs

    The theorems below hold for every [hypot], [arccos] and [arctan].
    To run the code on concrete detections the three functions are
    given here by binary64 programs: [hypot] as the rounded square root
    of the sum of squares, [arctan] by three halvings of the angle
    followed by its Taylor polynomial, [arccos] through [arctan].  They
    stay close to the C library's values and agree with them at the
    special ones (NaN, the infinities, [arccos 1 = 0], [arctan 0 = 0]);
    the inputs below are chosen away from every threshold. *)

Module Libm.

Definition hypot (x y : float) : result float :=
  if is_infinity x || is_infinity y then Ok infinity
  else if is_nan x || is_nan y then Ok nan
  else
    let h := sqrt (x * x + y * y) in
    let h := if is_infinity h
             then let m := py_max (abs x) (abs y) in
                  let n := py_min (abs x) (abs y) in
                  m * sqrt (1 + (n / m) * (n / m))
             else h in
    if is_infinity h then Raise (OverflowError "math range error") else Ok h.

(** [x - x^3/3 + x^5/5 - ...], [terms] terms from the one of degree
    [2k+1], [pw] being [x^(2k+1)] with its sign. *)
Fixpoint atan_poly (terms : nat) (x2 pw k : float) : float :=
  match terms with
  | O => 0
  | S n => pw / (2 * k + 1) + atan_poly n x2 (- (pw * x2)) (k + 1)
  end.

(** [arctan x = 2 arctan (x / (1 + sqrt (1 + x^2)))]. *)
Definition halve (x : float) : float := x / (1 + sqrt (1 + x * x)).

(** [arctan] on [[0, 1]]. *)
Definition atan_unit (x : float) : float :=
  let t := halve (halve (halve x)) in
  8 * atan_poly 12 (t * t) t 0.

(** [arctan] on the non-negative numbers. *)
Definition atan_pos (x : float) : float :=
  if 1 <? x then pi / 2 - atan_unit (1 / x) else atan_unit x.

Definition arctan (x : float) : float :=
  if is_nan x then nan
  else if x =? 0 then x
  else if x <? 0 then - atan_pos (- x) else atan_pos x.

Definition arccos (x : float) : float :=
  if is_nan x || (1 <? abs x) then nan
  else if x =? -1 then pi
  else 2 * arctan (sqrt ((1 - x) / (1 + x))).

End Libm.

(* ================================================================== *)
(** ** Sample inputs *)

Module Sample.

(** Stand-ins for astropy's bounding box and rasterisation, for running
    the code on lists of circles, where the pixel kernel is not
    reached. *)
Definition bbox (x_0 y_0 a b theta : float) : (float * float) * (float * float) :=
  ((y_0 - a, y_0 + a), (x_0 - a, x_0 + a)).
Definition areas (grid_space : float) (ybounds xbounds : float * float)
           (e1 e2 : float * float * float * float * float) : Z * Z * Z :=
  (0%Z, 1%Z, 1%Z).

(** A circle of radius 2 inside a circle of radius 4, and a far circle. *)
Definition nested : ndarray :=
  [[0; 0; 4; 4; 0]; [0; 1; 2; 2; 0]; [50; 50; 3; 3; 0]].

(** Two circles of radius 4 one pixel apart. *)
Definition tie : ndarray := [[0; 0; 4; 4; 0]; [0; 1; 4; 4; 0]].

(** Two refined regions as [BubbleFinder2D] hands them to [_prune_blobs]:
    geometry, shell fraction, channel.  The one with shell fraction 0.9
    has radius 2 and lies inside the one with shell fraction 0.3 and
    radius 4. *)
Definition shell_pair : ndarray :=
  [[0; 0; 2; 2; 0; 0.9; 0]; [0; 1; 4; 4; 0; 0.3; 0]].

(** Two circles of radius 4 whose centres are less than a radius apart,
    and a far circle. *)
Definition mergeable : ndarray :=
  [[0; 0; 4; 4; 0]; [3; 2; 4; 4; 0]; [50; 50; 2; 2; 0]].

(** Four circles of radius 4 on a line, at x = -2, 5, 0 and 3, and a far
    circle.  The centres of rows 0 and 2, of rows 1 and 3 and of rows 2
    and 3 are less than a radius apart; every other pair is farther. *)
Definition chain : ndarray :=
  [[0; -2; 4; 4; 0]; [0; 5; 4; 4; 0]; [0; 0; 4; 4; 0]; [0; 3; 4; 4; 0];
   [100; 100; 4; 4; 0]].

(** An image and stand-ins for the image-processing libraries: a filter
    that returns the image, a peak finder that finds nothing, and one
    that finds the pixel (3, 4) on every slice. *)
Definition flat_image : image := [[0; 0]; [0; 0]].
Definition same_image (img : image) : image := img.
Definition unfiltered (img : image) (sigma : float) : image := img.
Definition no_peaks (img : image) (threshold_abs min_distance : float)
  : list (Z * Z) := [].
Definition one_peak (img : image) (threshold_abs min_distance : float)
  : list (Z * Z) := [(3, 4)%Z].

(** Stand-ins for the functions that build the default scales; they are
    not reached when [sigma_list] is given. *)
Definition log_unused (x base : float) : result float := Ok 0.
Definition space_unused (start stop : float) (num : Z) : result (list float) :=
  Ok [].
Definition int_unused (x : float) : result Z := Ok 0%Z.
Definition pow_unused (x : float) (i : Z) : result float := Ok 1.

End Sample.

(* ================================================================== *)
(** ** More sample inputs *)

Module Cases.

(** Two refined regions (geometry, shell fraction, channel) that lie far
    apart. *)
Definition far_regions : ndarray :=
  [[0; 0; 2; 2; 0; 0.9; 0]; [50; 50; 4; 4; 0; 0.3; 0]].

(** An ellipse and a circle, the ellipse with the larger semi-major
    axis. *)
Definition ellipse_row : row := [10; 10; 6; 3; 0.5].
Definition circle_row : row := [12; 11; 4; 4; 0].

(** A peak finder that reports the pixels (3, 4) and (40, 50) on every
    slice. *)
Definition two_peaks (img : image) (threshold_abs min_distance : float)
  : list (Z * Z) := [(3, 4)%Z; (40, 50)%Z].

(** A circle of radius 0 and a circle of radius 2, far apart. *)
Definition with_point : ndarray := [[0; 0; 0; 0; 0]; [50; 50; 2; 2; 0]].

End Cases.

(* ================================================================== *)
(** ** bubble_segment2D.py: the finder

    [BubbleFinder2D] keeps the image, the scales and their weightings,
    and [multiscale_bubblefind] runs [blob_log] on them, refines every
    detection and prunes the refined regions.  The parts that come from
    other libraries, or that draw and wait for the keyboard, are
    arguments of the model:

    - [np_arange start stop step] is [np.arange];
    - [sig_clip img nsig] is [basics.utils.sig_clip];
    - [edge_fit img i props sigma] stands for lines 213-268 of
      [multiscale_bubblefind], the search for the edge of detection
      number [i] with [find_bubble_edges] and the fit of an ellipse or a
      circle with [ransac]: [None] when the iteration ends in
      [continue], the fitted row [new_props] with the shell fraction
      otherwise;
    - [show_region img i props new_props sigma] stands for lines 270-292,
      which search the edge again, print, draw both regions and wait for
      a key.

    The method ends by making a [Bubble2D] of every row that is left;
    the model keeps the rows. *)

Module Segment.

(** The attributes of a [BubbleFinder2D] that [multiscale_bubblefind]
    reads and writes; [regions] holds the rows handed to [Bubble2D]. *)
Record BubbleFinder2D : Type := mk_finder {
  array : image;
  scales : list float;
  weightings : list float;
  channel : option float;
  regions : ndarray
}.

Definition new_props_unbound : exn :=
  UnboundLocalError "local variable 'new_props' referenced before assignment".

(** [blobs_array[:, slicer]] on the array [np.array([])], which has one
    axis. *)
Definition too_many_indices : exn := IndexError "too many indices for array".

Section Finder.

Variable hypot : float -> float -> result float.
Variable arccos : float -> float.
Variable arctan : float -> float.
Variable bbox :
  float -> float -> float -> float -> float -> (float * float) * (float * float).
Variable areas :
  float -> float * float -> float * float ->
  float * float * float * float * float ->
  float * float * float * float * float -> Z * Z * Z.
Variable img_as_float : image -> image.
Variable gaussian_laplace : image -> float -> image.
Variable peak_local_max : image -> float -> float -> list (Z * Z).
Variable math_log : float -> float -> result float.
Variable np_logspace : float -> float -> Z -> result (list float).
Variable np_linspace : float -> float -> Z -> result (list float).
Variable py_int : float -> result Z.
Variable py_pow : float -> Z -> result float.
Variable np_arange : float -> float -> float -> list float.
Variable sig_clip : image -> float -> result float.
Variable edge_fit : image -> nat -> row -> float -> result (option (row * float)).
Variable show_region : image -> nat -> row -> row -> float -> result unit.

(** [np.nan_to_num] on one value. *)
Definition nan_to_num (v : float) : float :=
  if is_nan v then 0
  else if v =? infinity then 0x1.fffffffffffffp+1023
  else if v =? neg_infinity then -0x1.fffffffffffffp+1023
  else v.

(** Lines 57-80 of [__init__], for an image and scales of floats, with
    [beam_pix], the beam width in pixels of line 63, as an argument. *)
Definition __init__ (input_array : image) (scales : option (list float))
           (channel : option float) (beam_pix : float) : result BubbleFinder2D :=
  let array := map (map nan_to_num) input_array in
  let scales :=
    match scales with
    | None => map (fun v => beam_pix * v) (np_arange 1 (8 + sqrt 2) (sqrt 2))
    | Some s => s
    end in
  let weightings := map (fun _ : float => 1) scales in
  s0 <- row_get scales 0 ;;
  weightings <- (if s0 =? beam_pix then row_set weightings 0 0.8 else Ok weightings) ;;
  Ok (mk_finder array scales weightings channel []).

(** The body of the loop of [multiscale_bubblefind] over the
    detections. *)
Definition region_body (self : BubbleFinder2D) (sigma : float) (edge_find : bool)
           (all_props : list row) (ip : nat * row) : result (list row) :=
  let '(i, props) := ip in
  if edge_find then
    fit <- edge_fit (array self) i props sigma ;;
    match fit with
    | None => Ok all_props
    | Some (new_props, shell_fraction) =>
        _ <- show_region (array self) i props new_props sigma ;;
        let new_props := new_props ++ [shell_fraction] in
        let new_props :=
          match channel self with
          | Some c => new_props ++ [c]
          | None => new_props
          end in
        Ok (all_props ++ [new_props])
    end
  else Raise new_props_unbound.

Definition multiscale_bubblefind (self : BubbleFinder2D)
           (scales : option (list float)) (sigma : option float)
           (nsig overlap_frac : float) (edge_find : bool)
  : result BubbleFinder2D :=
  let self :=
    match scales with
    | Some s => mk_finder (array self) s (weightings self) (channel self) (regions self)
    | None => self
    end in
  sigma <- match sigma with
           | None => sig_clip (array self) 10
           | Some s => Ok s
           end ;;
  found <- blob_log hypot arccos arctan bbox areas img_as_float gaussian_laplace
                    peak_local_max math_log np_logspace np_linspace py_int py_pow
                    (array self) (Some (Segment.scales self)) (lit "linear") 1 50 10
                    (nsig * sigma) 0.99 2 (Some (weightings self)) 1 ;;
  all_props <- foldM (region_body self sigma edge_find) []
                     (enumerate (rev (fst found))) ;;
  all_props <- match all_props with
               | [] => Raise too_many_indices
               | _ => _prune_blobs hypot arccos bbox areas all_props 0.9 true
               end ;;
  Ok (mk_finder (array self) (Segment.scales self) (weightings self) (channel self)
                all_props).

End Finder.

(** Stand-ins for running the finder: an edge search that accepts every
    detection as it is, with shell fraction 0.95, and a display that
    does nothing. *)
Definition keep_fit (img : image) (i : nat) (props : row) (sigma : float)
  : result (option (row * float)) := Ok (Some (props, 0.95)).
Definition no_display (img : image) (i : nat) (props new_props : row)
           (sigma : float) : result unit := Ok tt.
Definition flat_clip (img : image) (nsig : float) : result float := Ok 0.1.
Definition six_steps (start stop step : float) : list float :=
  [1; 1 + sqrt 2; 1 + 2 * sqrt 2; 1 + 3 * sqrt 2; 1 + 4 * sqrt 2; 1 + 5 * sqrt 2].

End Segment.

(* ================================================================== *)
(** ** bubble_catalog.py: the column names of the catalogue *)

Module Catalog.

Definition all_columns : list string :=
  ["pa"; "bubble_type"; "velocity_center"; "velocity_width";
   "eccentricity"; "expansion_velocity"; "avg_shell_flux_density";
   "total_shell_flux_density"; "shell_column_density";
   "hole_contrast"; "diameter_physical"; "major_physical";
   "minor_physical"; "diameter_angular"; "major_angular";
   "minor_angular"; "galactic_radius"; "galactic_pa";
   "tkin"; "shell_volume_density"; "volume"; "hole_mass";
   "formation_energy"; "shell_fraction"; "is_closed"]%string.

Definition not_numerical : list string := ["col0"%string].

(** The keys of the dictionaries [props] and [prop_funcs] of
    [create_table], in the order of the program text.  [create_table]
    makes one column for each, after the column of coordinates and the
    column ["closed_shell"]. *)
Definition props : list string :=
  ["pa"; "bubble_type"; "velocity_center"; "velocity_width";
   "eccentricity"; "expansion_velocity"; "avg_shell_flux_density";
   "total_shell_flux_density"; "shell_column_density"; "hole_contrast";
   "diameter_physical"; "major_physical"; "minor_physical";
   "diameter_angular"; "major_angular"; "minor_angular";
   "galactic_radius"; "galactic_pa"; "shell_fraction"; "is_closed"]%string.

Definition prop_funcs : list string :=
  ["tkin"; "shell_volume_density"; "volume"; "hole_mass";
   "formation_energy"]%string.

(** [name in names]. *)
Definition py_in (name : string) (names : list string) : bool :=
  existsb (String.eqb name) names.

Definition _check_given_column (name : string) : result unit :=
  if negb (py_in name all_columns)
  then Raise (ValueError (name ++ " is not a defined column name.")%string)
  else Ok tt.

(** The first loop of [corner_plot], lines 237-241, which checks the
    columns before anything is imported or read. *)
Definition corner_plot_columns (columns : list string) : result unit :=
  foldM (fun (_ : unit) column =>
           if py_in column not_numerical
           then Raise (ValueError (column ++ " is not numerical. Cannot plot.")%string)
           else _check_given_column column)
        tt columns.

End Catalog.

(* ================================================================== *)
(** ** Vocabulary of the statements *)

(** The semi-major axis of row [k] of an array, [a[k][2]]. *)
Definition semi_major (a : ndarray) (k : nat) : float := nth 2 (arr_row a k) 0.

(** The member of a pair that the loop of [_prune_blobs] marks when
    [use_shell_fraction] is off. *)
Definition marked (blobs_array : ndarray) (posn : nat * nat) : nat :=
  if fgt (semi_major blobs_array (fst posn)) (semi_major blobs_array (snd posn))
  then snd posn else fst posn.

(** The rows that survive [np.delete], by index. *)
Definition survivors_of (n : nat) (obj : list nat) : list nat :=
  filter (fun k => negb (mem k obj)) (seq 0 n).

(** Row [k] of the array carries the sentinel of [_merge_blobs]: both
    axes are [-1]. *)
Definition sentinel_at (a : ndarray) (k : nat) (y x : float) (t : row) : Prop :=
  nth_error a k = Some (y :: x :: -1 :: -1 :: t).

(** The place of a binary64 value on the number line: its class
    (negative infinity, negative, zero, positive, positive infinity),
    then exponent and mantissa; [key_lt] is the lexicographic order. *)
Definition SFkey (x : spec_float) : Z * Z * Z :=
  match x with
  | S754_infinity true => (-2, 0, 0)%Z
  | S754_finite true m e => (-1, - e, - Zpos m)%Z
  | S754_zero _ => (0, 0, 0)%Z
  | S754_nan => (0, 0, 0)%Z
  | S754_finite false m e => (1, e, Zpos m)%Z
  | S754_infinity false => (2, 0, 0)%Z
  end.

Definition key_lt (k1 k2 : Z * Z * Z) : Prop :=
  let '(a1, b1, c1) := k1 in
  let '(a2, b2, c2) := k2 in
  (a1 < a2 \/ (a1 = a2 /\ (b1 < b2 \/ (b1 = b2 /\ c1 < c2))))%Z.

(* ================================================================== *)
(** ** Facts about binary64 comparisons *)

Lemma SFcompare_swap (x y : spec_float) :
  SFcompare y x = option_map CompOpp (SFcompare x y).
Proof.
  destruct x as [sx| sx| |sx mx ex], y as [sy| sy| |sy my ey]; cbn;
    try reflexivity;
    try (destruct sx; reflexivity); try (destruct sy; reflexivity);
    try (destruct sx, sy; reflexivity).
  destruct sx, sy; cbn; try reflexivity;
    rewrite (Z.compare_antisym ex ey);
    destruct (ex ?= ey)%Z; cbn; try reflexivity;
    repeat f_equal; symmetry; exact (Pos.compare_cont_antisym mx my Eq).
Qed.

Lemma SFcompare_refl (x : spec_float) :
  x <> S754_nan -> SFcompare x x = Some Eq.
Proof.
  destruct x as [s| s| |s m e]; cbn; intros H; try congruence.
  - destruct s; reflexivity.
  - destruct s; rewrite Z.compare_refl;
      change (PosDef.Pos.compare_cont Eq m m) with (Pos.compare_cont Eq m m);
      rewrite Pos.compare_cont_refl; reflexivity.
Qed.

(** Equal floats are not ordered. *)
Lemma feqb_not_lt (x y : float) :
  (x =? y) = true -> (x <? y) = false /\ (y <? x) = false.
Proof.
  rewrite eqb_spec, !ltb_spec. unfold SFeqb, SFltb.
  rewrite (SFcompare_swap (Prim2SF x) (Prim2SF y)).
  destruct (SFcompare (Prim2SF x) (Prim2SF y)) as [[]|]; cbn;
    intros; try discriminate; auto.
Qed.

(** [<] is asymmetric. *)
Lemma fltb_asym (x y : float) : (x <? y) = true -> (y <? x) = false.
Proof.
  rewrite !ltb_spec. unfold SFltb.
  rewrite (SFcompare_swap (Prim2SF x) (Prim2SF y)).
  destruct (SFcompare (Prim2SF x) (Prim2SF y)) as [[]|]; cbn;
    intros; try discriminate; auto.
Qed.

(** Ordered floats are numbers: each equals itself. *)
Lemma fltb_eq_self (x y : float) :
  (x <? y) = true -> (x =? x) = true /\ (y =? y) = true.
Proof.
  rewrite ltb_spec, !eqb_spec. unfold SFltb, SFeqb. intros H.
  assert (Prim2SF x <> S754_nan /\ Prim2SF y <> S754_nan) as [Hx Hy].
  { destruct (Prim2SF x), (Prim2SF y); cbn in H; split; congruence. }
  rewrite !SFcompare_refl by assumption. auto.
Qed.

(* ================================================================== *)
(** ** Facts about the error monad *)

Lemma bind_Ok_inv {A B : Type} (c : result A) (k : A -> result B) (b : B) :
  bind c k = Ok b -> exists a, c = Ok a /\ k a = Ok b.
Proof. destruct c as [a|e]; cbn; intros H; [eauto | discriminate]. Qed.

Lemma foldM_app {S X : Type} (f : S -> X -> result S) (st : S) (l1 l2 : list X) :
  foldM f st (l1 ++ l2) = bind (foldM f st l1) (fun st' => foldM f st' l2).
Proof.
  revert st; induction l1 as [|x l1 IH]; intros st; cbn; [reflexivity|].
  destruct (f st x) as [st'|e]; cbn; [apply IH | reflexivity].
Qed.

Lemma mapM_Ok_Forall2 {X Y : Type} (f : X -> result Y) (xs : list X) (ys : list Y) :
  mapM f xs = Ok ys -> Forall2 (fun x y => f x = Ok y) xs ys.
Proof.
  revert ys; induction xs as [|x xs IH]; cbn; intros ys H.
  - injection H as <-. constructor.
  - apply bind_Ok_inv in H as (y & Hy & H).
    apply bind_Ok_inv in H as (ys' & Hys & H).
    injection H as <-. constructor; auto.
Qed.

Lemma Forall2_combine_In {X Y : Type} (R : X -> Y -> Prop) (xs : list X) (ys : list Y) :
  Forall2 R xs ys -> forall x y, In (x, y) (combine xs ys) -> R x y.
Proof.
  induction 1 as [|x y xs ys HR _ IH]; cbn; intros a b Hin; [contradiction|].
  destruct Hin as [Heq|Hin]; [injection Heq as <- <-; assumption | auto].
Qed.

Lemma Forall2_In_combine {X Y : Type} (R : X -> Y -> Prop) (xs : list X) (ys : list Y) :
  Forall2 R xs ys -> forall x, In x xs -> exists y, In (x, y) (combine xs ys) /\ R x y.
Proof.
  induction 1 as [|x y xs ys HR _ IH]; cbn; intros a Hin; [contradiction|].
  destruct Hin as [<-|Hin]; [eauto|].
  destruct (IH a Hin) as (b & Hb & HRb). eauto.
Qed.

(* ================================================================== *)
(** ** The circle kernel and the dispatcher *)

Section KernelFacts.

Variable hypot : float -> float -> result float.
Variable arccos : float -> float.
Variable Ellipse2D_bounding_box :
  float -> float -> float -> float -> float -> (float * float) * (float * float).
Variable raster_areas :
  float -> float * float -> float * float ->
  float * float * float * float * float ->
  float * float * float * float * float -> Z * Z * Z.

(** C4, as the code has it.  For two rows with centre distance [d] and
    radii [r1], [r2], [_blob_overlap] returns 0 when [d > r1 + r2],
    returns the positive constant [1e-5] when [d == r1 + r2], and returns
    1 when [d <= |r1 - r2|] and neither of the first two tests holds: the
    three tests are tried in that order. *)
Theorem blob_overlap_first_three_cases
        (y1 x1 r1 y2 x2 r2 d : float) (t1 t2 : row) :
  hypot (y1 - y2) (x1 - x2) = Ok d ->
  (fgt d (r1 + r2) = true ->
   _blob_overlap hypot arccos (y1 :: x1 :: r1 :: t1) (y2 :: x2 :: r2 :: t2) = Ok 0)
  /\ ((d =? r1 + r2) = true ->
      _blob_overlap hypot arccos (y1 :: x1 :: r1 :: t1) (y2 :: x2 :: r2 :: t2)
      = Ok touching_eps)
  /\ (fgt d (r1 + r2) = false -> (d =? r1 + r2) = false ->
      (d <=? abs (r1 - r2)) = true ->
      _blob_overlap hypot arccos (y1 :: x1 :: r1 :: t1) (y2 :: x2 :: r2 :: t2) = Ok 1)
  /\ fgt touching_eps 0 = true /\ (touching_eps =? 0) = false.
Proof.
  intros Hd. unfold _blob_overlap. cbn [row_get nth_error bind]. rewrite Hd.
  cbn [bind]. repeat split.
  - intros ->. reflexivity.
  - intros He. destruct (feqb_not_lt _ _ He) as [_ Hlt].
    unfold fgt. rewrite Hlt, He. reflexivity.
  - intros -> -> ->. reflexivity.
Qed.

(** C5.  On two 5-field rows [overlap_metric] is the pixel-sampled kernel
    when one of them has [semi_major != semi_minor], and otherwise the
    circle kernel with the value [1e-5] replaced by 0. *)
Theorem overlap_metric_dispatch (y1 x1 a1 b1 p1 y2 x2 a2 b2 p2 : float) :
  overlap_metric hypot arccos Ellipse2D_bounding_box raster_areas
                 [y1; x1; a1; b1; p1] [y2; x2; a2; b2; p2]
  = if fneq a1 b1 || fneq a2 b2
    then _pixel_overlap Ellipse2D_bounding_box raster_areas
                        [y1; x1; a1; b1; p1] [y2; x2; a2; b2; p2]
                        default_grid_space false
    else v <- _blob_overlap hypot arccos [y1; x1; a1; b1; p1] [y2; x2; a2; b2; p2] ;;
         Ok (if v =? touching_eps then 0 else v).
Proof.
  unfold overlap_metric, py_or, elongated. cbn [row_get nth_error bind].
  destruct (fneq a1 b1); cbn [orb bind]; [reflexivity|].
  destruct (fneq a2 b2); cbn [bind]; [reflexivity|].
  destruct (_blob_overlap hypot arccos _ _) as [v|e]; cbn [bind]; [|reflexivity].
  destruct (v =? touching_eps); reflexivity.
Qed.

End KernelFacts.

(** C4: a circle of radius 0 on the rim of a circle of radius 1 has
    [d == r1 + r2] and [d <= |r1 - r2|] at once; the code answers
    [1e-5], not 1. *)
Lemma blob_overlap_rim_point :
  Libm.hypot (0 - 0) (0 - 1) = Ok 1
  /\ (1 <=? abs (1 - 0)) = true
  /\ _blob_overlap Libm.hypot Libm.arccos [0; 0; 1; 1; 0] [0; 1; 0; 0; 0]
     = Ok touching_eps
  /\ (touching_eps =? 1) = false.
Proof. repeat split; vm_compute; reflexivity. Qed.

Lemma blob_overlap_first_three_cases_witness :
  _blob_overlap Libm.hypot Libm.arccos [0; 0; 1; 1; 0] [0; 3; 1; 1; 0] = Ok 0
  /\ _blob_overlap Libm.hypot Libm.arccos [0; 0; 1; 1; 0] [0; 2; 1; 1; 0]
     = Ok touching_eps
  /\ _blob_overlap Libm.hypot Libm.arccos [0; 0; 3; 3; 0] [0; 1; 1; 1; 0] = Ok 1.
Proof.
  split; [|split].
  - apply (blob_overlap_first_three_cases Libm.hypot Libm.arccos
             0 0 1 0 3 1 3 [1; 0] [1; 0]); reflexivity.
  - apply (blob_overlap_first_three_cases Libm.hypot Libm.arccos
             0 0 1 0 2 1 2 [1; 0] [1; 0]); reflexivity.
  - apply (blob_overlap_first_three_cases Libm.hypot Libm.arccos
             0 0 3 0 1 1 1 [3; 0] [1; 0]); reflexivity.
Defined.

(* ================================================================== *)
(** ** The pairwise overlap matrix *)

Lemma in_upper_pairs (n i j : nat) :
  In (i, j) (upper_pairs n) <-> i < j < n.
Proof.
  unfold upper_pairs. rewrite in_flat_map. split.
  - intros (k & Hk & Hin). apply in_map_iff in Hin as (l & Heq & Hl).
    injection Heq as <- <-. apply in_seq in Hk, Hl. lia.
  - intros H. exists i. split; [apply in_seq; lia|].
    apply in_map_iff. exists j. split; [reflexivity | apply in_seq; lia].
Qed.

Lemma in_np_where (mask : float -> bool) (dist_arr : list ((nat * nat) * float))
      (p : nat * nat) :
  In p (np_where mask dist_arr) <-> exists v, In (p, v) dist_arr /\ mask v = true.
Proof.
  unfold np_where. rewrite in_map_iff. split.
  - intros ([q v] & Heq & Hin). cbn in Heq. subst q.
    apply filter_In in Hin as [Hin Hm]. eauto.
  - intros (v & Hin & Hm). exists (p, v). split; [reflexivity|].
    apply filter_In. auto.
Qed.

Lemma in_combine_upper_pairs (cond_arr : list float) (n : nat) (p : nat * nat) (v : float) :
  In (p, v) (dist_uppertri cond_arr n) -> fst p < snd p < n.
Proof.
  intros H. apply in_combine_l in H. destruct p as [i j].
  apply in_upper_pairs in H. exact H.
Qed.

Section MatrixFacts.

Variable metric : row -> row -> result float.

(** Every entry of the matrix is the metric of its pair of rows. *)
Lemma pdist_entry (X : ndarray) (cond_arr : list float) (i j : nat) (v : float) :
  pdist metric X = Ok cond_arr ->
  In ((i, j), v) (dist_uppertri cond_arr (List.length X)) ->
  metric (arr_row X i) (arr_row X j) = Ok v.
Proof.
  intros Hp Hin. apply mapM_Ok_Forall2 in Hp.
  exact (Forall2_combine_In _ _ _ Hp (i, j) v Hin).
Qed.

(** Every pair of rows has its entry. *)
Lemma pdist_complete (X : ndarray) (cond_arr : list float) (i j : nat) :
  pdist metric X = Ok cond_arr ->
  i < j < List.length X ->
  exists v, In ((i, j), v) (dist_uppertri cond_arr (List.length X))
            /\ metric (arr_row X i) (arr_row X j) = Ok v.
Proof.
  intros Hp Hij. apply mapM_Ok_Forall2 in Hp.
  apply (Forall2_In_combine _ _ _ Hp (i, j)). apply in_upper_pairs. exact Hij.
Qed.

End MatrixFacts.

(* ================================================================== *)
(** ** [np.delete] *)

Lemma mem_In (k : nat) (l : list nat) : mem k l = true <-> In k l.
Proof.
  unfold mem. rewrite existsb_exists. split.
  - intros (x & Hx & He). apply Nat.eqb_eq in He. subst. exact Hx.
  - intros H. exists k. split; [exact H | apply Nat.eqb_refl].
Qed.

Lemma mem_nodup (k : nat) (l : list nat) : mem k (nodup Nat.eq_dec l) = mem k l.
Proof.
  apply eq_true_iff_eq. rewrite !mem_In. apply nodup_In.
Qed.

Lemma np_delete_nodup (a : ndarray) (obj : list nat) :
  np_delete a (nodup Nat.eq_dec obj) = np_delete a obj.
Proof.
  unfold np_delete. f_equal. apply filter_ext. intros k. now rewrite mem_nodup.
Qed.

Lemma StronglySorted_seq (start len : nat) : StronglySorted lt (seq start len).
Proof.
  revert start; induction len as [|len IH]; intros start; cbn; constructor.
  - apply IH.
  - apply Forall_forall. intros x Hx. apply in_seq in Hx. lia.
Qed.

Lemma StronglySorted_filter (f : nat -> bool) (l : list nat) :
  StronglySorted lt l -> StronglySorted lt (filter f l).
Proof.
  induction 1 as [|x l Hl IH Hx]; cbn; [constructor|].
  destruct (f x); [constructor|]; auto.
  apply Forall_forall. intros y Hy. apply filter_In in Hy as [Hy _].
  rewrite Forall_forall in Hx. auto.
Qed.

Lemma in_survivors_of (n : nat) (obj : list nat) (k : nat) :
  In k (survivors_of n obj) <-> k < n /\ ~ In k obj.
Proof.
  unfold survivors_of. rewrite filter_In, in_seq, negb_true_iff.
  rewrite <- mem_In. destruct (mem k obj); intuition (try lia; congruence).
Qed.

(** Each listed index removes one row, however often it is listed. *)
Lemma length_survivors_of (n : nat) (obj : list nat) :
  (forall k, In k obj -> k < n) ->
  List.length (survivors_of n obj) = (n - List.length (nodup Nat.eq_dec obj))%nat.
Proof.
  intros Hb. unfold survivors_of.
  pose proof (filter_length (fun k => mem k obj) (seq 0 n)) as Hsum.
  rewrite length_seq in Hsum.
  assert (Hperm : Permutation (filter (fun k => mem k obj) (seq 0 n))
                              (nodup Nat.eq_dec obj)).
  { apply NoDup_Permutation.
    - apply NoDup_filter, seq_NoDup.
    - apply NoDup_nodup.
    - intros k. rewrite filter_In, in_seq, mem_In, nodup_In.
      split; [tauto|]. intros H. split; [|exact H]. specialize (Hb k H). lia. }
  apply Permutation_length in Hperm. lia.
Qed.

(* ================================================================== *)
(** ** Pruning *)

Lemma row_get_nth (b : row) (i : nat) (v d : float) :
  row_get b i = Ok v -> nth i b d = v.
Proof.
  unfold row_get. destruct (nth_error b i) as [w|] eqn:E; intros H;
    [injection H as <-; exact (nth_error_nth _ _ d E) | discriminate].
Qed.

Section PruneFacts.

Variable hypot : float -> float -> result float.
Variable arccos : float -> float.
Variable bbox :
  float -> float -> float -> float -> float -> (float * float) * (float * float).
Variable areas :
  float -> float * float -> float * float ->
  float * float * float * float * float ->
  float * float * float * float * float -> Z * Z * Z.


(** A pair on which the (overlap_metric hypot arccos bbox areas) returns has a semi-major axis on both
    sides. *)
Lemma overlap_metric_reads_semi_major (e1 e2 : row) (v : float) :
  (overlap_metric hypot arccos bbox areas) e1 e2 = Ok v ->
  exists r1 r2, row_get e1 2 = Ok r1 /\ row_get e2 2 = Ok r2.
Proof.
  unfold overlap_metric, py_or, elongated.
  destruct (row_get e1 2) as [a1|] eqn:E1; cbn [bind]; [|discriminate].
  destruct (row_get e1 3) as [b1|]; cbn [bind]; [|discriminate].
  destruct (fneq a1 b1); cbn [bind].
  - unfold _pixel_overlap. rewrite E1. cbn [bind].
    destruct (row_get e2 2) as [a2|]; cbn [bind]; [eauto | discriminate].
  - destruct (row_get e2 2) as [a2|]; cbn [bind]; [eauto | discriminate].
Qed.

(** The pairs the loop visits are the pairs whose overlap reaches the
    threshold. *)
Lemma in_prune_overlaps (X : ndarray) (overlap : float) (cond_arr : list float)
      (i j : nat) :
  pdist (overlap_metric hypot arccos bbox areas) X = Ok cond_arr ->
  (In (i, j) (prune_overlaps overlap cond_arr (List.length X))
   <-> i < j < List.length X
       /\ exists v, (overlap_metric hypot arccos bbox areas) (arr_row X i) (arr_row X j) = Ok v /\ fge v overlap = true).
Proof.
  intros Hp. unfold prune_overlaps. rewrite in_np_where. split.
  - intros (v & Hin & Hv). split.
    + exact (in_combine_upper_pairs _ _ _ _ Hin).
    + exists v. split; [exact (pdist_entry _ _ _ _ _ _ Hp Hin) | exact Hv].
  - intros (Hij & v & Hm & Hv).
    destruct (pdist_complete _ _ _ _ _ Hp Hij) as (w & Hin & Hw).
    exists w. split; [exact Hin|]. congruence.
Qed.

(** Without [use_shell_fraction] the loop appends, for each pair, the
    member [marked] names. *)
Lemma prune_loop_plain (blobs_array : ndarray) (overlaps : list (nat * nat)) :
  (forall p, In p overlaps ->
             exists r1 r2, row_get (arr_row blobs_array (fst p)) 2 = Ok r1
                           /\ row_get (arr_row blobs_array (snd p)) 2 = Ok r2) ->
  forall remove_blobs cond,
  exists cond',
    foldM (prune_body false blobs_array) (remove_blobs, cond) overlaps
    = Ok (remove_blobs ++ map (marked blobs_array) overlaps, cond').
Proof.
  induction overlaps as [|[i j] ov IH]; intros Hrows rm c.
  - exists c. cbn. now rewrite app_nil_r.
  - destruct (Hrows (i, j) (or_introl eq_refl)) as (r1 & r2 & H1 & H2).
    cbn [fst snd] in H1, H2.
    assert (Hstep : prune_body false blobs_array (rm, c) (i, j)
                    = Ok (rm ++ [marked blobs_array (i, j)], Some (fgt r1 r2))).
    { unfold prune_body. rewrite H1, H2. cbn [bind].
      unfold marked, semi_major. cbn [fst snd].
      rewrite (row_get_nth _ _ _ 0 H1), (row_get_nth _ _ _ 0 H2).
      destruct (fgt r1 r2); reflexivity. }
    destruct (IH (fun p Hp => Hrows p (or_intror Hp))
                 (rm ++ [marked blobs_array (i, j)]) (Some (fgt r1 r2))) as (c' & Hc').
    exists c'. cbn [foldM]. rewrite Hstep. cbn [bind]. rewrite Hc'.
    now rewrite <- app_assoc.
Qed.

(** What [_prune_blobs] returns without [use_shell_fraction]. *)
Lemma prune_plain_result (blobs_array : ndarray) (overlap : float)
      (cond_arr : list float) :
  pdist (overlap_metric hypot arccos bbox areas) blobs_array = Ok cond_arr ->
  _prune_blobs hypot arccos bbox areas blobs_array overlap false
  = Ok (map (arr_row blobs_array)
            (survivors_of (List.length blobs_array)
               (map (marked blobs_array)
                    (prune_overlaps overlap cond_arr (List.length blobs_array))))).
Proof.
  intros Hp. unfold _prune_blobs.
  replace (map (slicer false) blobs_array) with blobs_array
    by (symmetry; apply map_id).
  rewrite Hp. cbn [bind].
  destruct (prune_loop_plain blobs_array
              (prune_overlaps overlap cond_arr (List.length blobs_array))) with
    (remove_blobs := @nil nat) (cond := @None bool) as (c' & Hloop).
  { intros [i j] Hin. cbn [fst snd].
    apply (in_prune_overlaps _ _ _ _ _ Hp) in Hin as (_ & v & Hm & _).
    exact (overlap_metric_reads_semi_major _ _ _ Hm). }
  rewrite Hloop. cbn [bind fst app]. now rewrite np_delete_nodup.
Qed.

(** The earlier member of a pair is marked unless it is strictly the
    larger. *)
Lemma marked_cases (blobs_array : ndarray) (i j : nat) :
  (fgt (semi_major blobs_array i) (semi_major blobs_array j) = true ->
   marked blobs_array (i, j) = j)
  /\ (fgt (semi_major blobs_array j) (semi_major blobs_array i) = true ->
      marked blobs_array (i, j) = i)
  /\ ((semi_major blobs_array i =? semi_major blobs_array j) = true ->
      marked blobs_array (i, j) = i).
Proof.
  unfold marked, fgt. cbn [fst snd]. repeat split.
  - intros ->. reflexivity.
  - intros H. now rewrite (fltb_asym _ _ H).
  - intros H. destruct (feqb_not_lt _ _ H) as [_ Hlt]. now rewrite Hlt.
Qed.

(** C6.  Without [use_shell_fraction], whenever the overlap matrix can be
    computed, [_prune_blobs] returns the rows at the indices [survivors]:
    for every pair [i < j] whose overlap is at least the threshold the
    member with the smaller semi-major axis is in [removed], and nothing
    else is; the survivors are the indices not in [removed], in
    increasing order; an index listed several times removes one row; and
    when exactly one pair reaches the threshold the list shrinks by 1. *)
Theorem prune_removes_smaller_member (blobs_array : ndarray) (overlap : float)
        (cond_arr : list float) :
  pdist (overlap_metric hypot arccos bbox areas) blobs_array = Ok cond_arr ->
  exists removed survivors,
    _prune_blobs hypot arccos bbox areas blobs_array overlap false = Ok (map (arr_row blobs_array) survivors)
    /\ (forall i j v,
          i < j < List.length blobs_array ->
          (overlap_metric hypot arccos bbox areas) (arr_row blobs_array i) (arr_row blobs_array j) = Ok v ->
          fge v overlap = true ->
          In (marked blobs_array (i, j)) removed
          /\ (fgt (semi_major blobs_array i) (semi_major blobs_array j) = true ->
              marked blobs_array (i, j) = j)
          /\ (fgt (semi_major blobs_array j) (semi_major blobs_array i) = true ->
              marked blobs_array (i, j) = i))
    /\ (forall k, In k removed ->
          exists i j v,
            i < j < List.length blobs_array
            /\ (overlap_metric hypot arccos bbox areas) (arr_row blobs_array i) (arr_row blobs_array j) = Ok v
            /\ fge v overlap = true /\ k = marked blobs_array (i, j))
    /\ StronglySorted lt survivors
    /\ (forall k, In k survivors <-> k < List.length blobs_array /\ ~ In k removed)
    /\ List.length survivors
       = (List.length blobs_array - List.length (nodup Nat.eq_dec removed))%nat
    /\ (List.length (prune_overlaps overlap cond_arr (List.length blobs_array)) = 1%nat ->
        S (List.length survivors) = List.length blobs_array).
Proof.
  intros Hp.
  set (ov := prune_overlaps overlap cond_arr (List.length blobs_array)).
  exists (map (marked blobs_array) ov),
         (survivors_of (List.length blobs_array) (map (marked blobs_array) ov)).
  assert (Hbound : forall k, In k (map (marked blobs_array) ov) ->
                             k < List.length blobs_array).
  { intros k Hk. apply in_map_iff in Hk as ([i j] & <- & Hin).
    apply (in_prune_overlaps _ _ _ _ _ Hp) in Hin as (Hij & _).
    unfold marked. cbn [fst snd]. destruct (fgt _ _); lia. }
  split; [exact (prune_plain_result _ _ _ Hp)|].
  split; [|split; [|split; [|split; [|split]]]].
  - intros i j v Hij Hm Hv. split; [|split].
    + apply in_map. apply (in_prune_overlaps _ _ _ _ _ Hp). eauto.
    + apply marked_cases.
    + apply marked_cases.
  - intros k Hk. apply in_map_iff in Hk as ([i j] & <- & Hin).
    apply (in_prune_overlaps _ _ _ _ _ Hp) in Hin as (Hij & v & Hm & Hv).
    exists i, j, v. auto.
  - apply StronglySorted_filter, StronglySorted_seq.
  - intros k. apply in_survivors_of.
  - apply length_survivors_of, Hbound.
  - intros Hone. rewrite (length_survivors_of _ _ Hbound).
    fold ov in Hone. destruct ov as [|p [|q ov']]; try discriminate Hone.
    cbn [map nodup In]. destruct (in_dec Nat.eq_dec _ []) as [[]|_].
    specialize (Hbound (marked blobs_array p) (or_introl eq_refl)).
    cbn [List.length]. lia.
Qed.

(** C10.  Without [use_shell_fraction], when the two members of a pair
    whose overlap reaches the threshold have equal semi-major axes, the
    pair marks its earlier member [i], which is removed; the later
    member [j] stays in the list unless another pair marks it. *)
Theorem prune_tie_removes_earlier_member (blobs_array : ndarray) (overlap : float)
        (cond_arr : list float) (i j : nat) (v : float) :
  pdist (overlap_metric hypot arccos bbox areas) blobs_array = Ok cond_arr ->
  i < j < List.length blobs_array ->
  (overlap_metric hypot arccos bbox areas) (arr_row blobs_array i) (arr_row blobs_array j) = Ok v ->
  fge v overlap = true ->
  (semi_major blobs_array i =? semi_major blobs_array j) = true ->
  exists survivors,
    _prune_blobs hypot arccos bbox areas blobs_array overlap false = Ok (map (arr_row blobs_array) survivors)
    /\ marked blobs_array (i, j) = i
    /\ ~ In i survivors
    /\ ((forall p, In p (prune_overlaps overlap cond_arr (List.length blobs_array)) ->
                   p <> (i, j) -> marked blobs_array p <> j) ->
        In j survivors).
Proof.
  intros Hp Hij Hm Hv Htie.
  set (ov := prune_overlaps overlap cond_arr (List.length blobs_array)).
  exists (survivors_of (List.length blobs_array) (map (marked blobs_array) ov)).
  assert (Hmark : marked blobs_array (i, j) = i) by (now apply marked_cases).
  assert (Hin : In (i, j) ov)
    by (apply (in_prune_overlaps _ _ _ _ _ Hp); eauto).
  split; [exact (prune_plain_result _ _ _ Hp)|].
  split; [exact Hmark|]. split.
  - rewrite in_survivors_of. intros [_ Hn]. apply Hn.
    rewrite <- Hmark. now apply in_map.
  - intros Hothers. apply in_survivors_of. split; [lia|].
    intros Hj. apply in_map_iff in Hj as (p & Hpj & Hpin).
    destruct (Hothers p Hpin) as []; [|exact Hpj].
    intros ->. rewrite Hmark in Hpj. lia.
Qed.

(** With [use_shell_fraction] the first pair whose overlap reaches the
    threshold reads the local variable [cond], which that branch never
    assigns. *)
Lemma prune_shell_fraction_raises (blobs_array : ndarray) (overlap : float)
      (cond_arr : list float) (p : nat * nat) (rest : list (nat * nat))
      (q1 q2 : float) :
  pdist (overlap_metric hypot arccos bbox areas) (map (slicer true) blobs_array) = Ok cond_arr ->
  prune_overlaps overlap cond_arr (List.length blobs_array) = p :: rest ->
  row_get (arr_row blobs_array (fst p)) 5 = Ok q1 ->
  row_get (arr_row blobs_array (snd p)) 5 = Ok q2 ->
  _prune_blobs hypot arccos bbox areas blobs_array overlap true = Raise cond_unbound.
Proof.
  intros Hp Hov H1 H2. unfold _prune_blobs. rewrite Hp. cbn [bind].
  rewrite Hov. destruct p as [i j]. cbn [fst snd] in H1, H2.
  cbn [foldM prune_body]. rewrite H1, H2. reflexivity.
Qed.

End PruneFacts.

Lemma prune_removes_smaller_member_witness :
  exists cond_arr survivors,
    pdist (overlap_metric Libm.hypot Libm.arccos Sample.bbox Sample.areas)
          Sample.nested = Ok cond_arr
    /\ _prune_blobs Libm.hypot Libm.arccos Sample.bbox Sample.areas
                    Sample.nested 0.5 false
       = Ok (map (arr_row Sample.nested) survivors)
    /\ ~ In 1%nat survivors
    /\ S (List.length survivors) = 3%nat.
Proof.
  assert (Hp : pdist (overlap_metric Libm.hypot Libm.arccos Sample.bbox Sample.areas)
                     Sample.nested = Ok [1; 0; 0]) by (vm_compute; reflexivity).
  destruct (prune_removes_smaller_member
              Libm.hypot Libm.arccos Sample.bbox Sample.areas
              Sample.nested 0.5 [1; 0; 0] Hp)
    as (removed & survivors & Hres & Hpair & _ & _ & Hsurv & _ & Hone).
  exists [1; 0; 0], survivors. split; [exact Hp|]. split; [exact Hres|]. split.
  - intros H1. apply Hsurv in H1 as [_ Hn]. apply Hn.
    destruct (Hpair 0%nat 1%nat 1) as (Hin & Hj & _);
      [cbn; lia | reflexivity | reflexivity |].
    rewrite Hj in Hin by reflexivity. exact Hin.
  - apply Hone. reflexivity.
Defined.

Lemma prune_tie_removes_earlier_member_witness :
  exists survivors,
    _prune_blobs Libm.hypot Libm.arccos Sample.bbox Sample.areas Sample.tie 0.5 false
    = Ok (map (arr_row Sample.tie) survivors)
    /\ ~ In 0%nat survivors /\ In 1%nat survivors.
Proof.
  edestruct (prune_tie_removes_earlier_member
               Libm.hypot Libm.arccos Sample.bbox Sample.areas Sample.tie 0.5)
    with (i := 0%nat) (j := 1%nat) as (survivors & Hres & _ & Hni & Hj).
  - vm_compute. reflexivity.
  - cbn. lia.
  - vm_compute. reflexivity.
  - vm_compute. reflexivity.
  - vm_compute. reflexivity.
  - exists survivors. split; [exact Hres|]. split; [exact Hni|].
    apply Hj. intros p Hin Hne. vm_compute in Hin.
    destruct Hin as [<-|[]]. now destruct Hne.
Defined.

(** C2 at the sample pair: pruning two regions with shell fractions
    [(0.9, 0.3)] raises [UnboundLocalError] instead of removing the one
    with shell fraction 0.3. *)
Theorem prune_shell_fraction_unbound_cond
        (bbox : float -> float -> float -> float -> float ->
                (float * float) * (float * float))
        (areas : float -> float * float -> float * float ->
                 float * float * float * float * float ->
                 float * float * float * float * float -> Z * Z * Z) :
  _prune_blobs Libm.hypot Libm.arccos bbox areas Sample.shell_pair 0.9 true
  = Raise cond_unbound.
Proof. reflexivity. Qed.

(* ================================================================== *)
(** ** Merging *)

Lemma arr_row_nth_error (a : ndarray) (k : nat) (r : row) :
  nth_error a k = Some r -> arr_row a k = r.
Proof. intros H. exact (nth_error_nth _ _ [] H). Qed.

Lemma nth_error_arr_set_eq (a : ndarray) (k : nat) (r r0 : row) :
  nth_error a k = Some r0 -> nth_error (arr_set a k r) k = Some r.
Proof.
  revert k; induction a as [|h a IH]; intros [|k]; cbn; intros H;
    try discriminate; [reflexivity | apply IH, H].
Qed.

Lemma nth_error_arr_set_neq (a : ndarray) (k k' : nat) (r : row) :
  k <> k' -> nth_error (arr_set a k r) k' = nth_error a k'.
Proof.
  revert k k'; induction a as [|h a IH]; intros [|k] [|k'] Hne; cbn;
    try reflexivity; [contradiction | apply IH; congruence].
Qed.

Lemma arr_write_at (a : ndarray) (k i : nat) (v : float) (r r' : row) :
  nth_error a k = Some r -> row_set r i v = Ok r' ->
  arr_write a k i v = Ok (arr_set a k r').
Proof.
  intros Hk Hr. unfold arr_write. rewrite (arr_row_nth_error _ _ _ Hk), Hr.
  reflexivity.
Qed.

(** Writing the sentinel over a row that carries it changes nothing. *)
Lemma arr_write_keeps_sentinel (a a' : ndarray) (k' i k : nat) (y x : float) (t : row) :
  i = 2%nat \/ i = 3%nat ->
  arr_write a k' i (-1) = Ok a' ->
  nth_error a k = Some (y :: x :: -1 :: -1 :: t) ->
  nth_error a' k = Some (y :: x :: -1 :: -1 :: t).
Proof.
  intros Hi Hw Hk. unfold arr_write in Hw.
  apply bind_Ok_inv in Hw as (r' & Hr' & Ha'). injection Ha' as <-.
  destruct (Nat.eq_dec k' k) as [->|Hne].
  - rewrite (arr_row_nth_error _ _ _ Hk) in Hr'.
    destruct Hi as [-> | ->]; cbn in Hr'; injection Hr' as <-;
      exact (nth_error_arr_set_eq _ _ _ _ Hk).
  - rewrite nth_error_arr_set_neq by exact Hne. exact Hk.
Qed.

Section MergeFacts.

Variable hypot : float -> float -> result float.
Variable arccos : float -> float.
Variable arctan : float -> float.
Variable bbox :
  float -> float -> float -> float -> float -> (float * float) * (float * float).
Variable areas :
  float -> float * float -> float * float ->
  float * float * float * float * float ->
  float * float * float * float * float -> Z * Z * Z.

(** One turn of the loop either leaves the state alone or appends one
    row to [merged_blobs] and writes the sentinel four times. *)
Lemma merge_body_inv (blobs_array merged_blobs : ndarray) (posn : nat * nat)
      (st' : merge_state) :
  merge_body hypot arctan (blobs_array, merged_blobs) posn = Ok st' ->
  st' = (blobs_array, merged_blobs)
  \/ exists new_blob a1 a2 a3 a4,
      merge_to_ellipse hypot arctan (arr_row blobs_array (fst posn))
                       (arr_row blobs_array (snd posn)) = Ok new_blob
      /\ arr_write blobs_array (fst posn) 2 (-1) = Ok a1
      /\ arr_write a1 (fst posn) 3 (-1) = Ok a2
      /\ arr_write a2 (snd posn) 2 (-1) = Ok a3
      /\ arr_write a3 (snd posn) 3 (-1) = Ok a4
      /\ st' = (a4, merged_blobs ++ [new_blob]).
Proof.
  destruct posn as [posn1 posn2]. unfold merge_body. cbn [fst snd]. intros H.
  apply bind_Ok_inv in H as (is_ellipse & _ & H).
  apply bind_Ok_inv in H as (c1 & _ & H).
  apply bind_Ok_inv in H as (c2 & _ & H).
  destruct (np_logical_and (c1 =? c2) (py_invert is_ellipse)).
  - right.
    apply bind_Ok_inv in H as (new_blob & Hn & H).
    apply bind_Ok_inv in H as (a1 & H1 & H).
    apply bind_Ok_inv in H as (a2 & H2 & H).
    apply bind_Ok_inv in H as (a3 & H3 & H).
    apply bind_Ok_inv in H as (a4 & H4 & H).
    injection H as <-. exists new_blob, a1, a2, a3, a4. auto 10.
  - left. now injection H as <-.
Qed.

Lemma merge_body_keeps_sentinel (st st' : merge_state) (posn : nat * nat)
      (k : nat) (y x : float) (t : row) :
  merge_body hypot arctan st posn = Ok st' ->
  sentinel_at (fst st) k y x t -> sentinel_at (fst st') k y x t.
Proof.
  destruct st as [bl mg]. intros H Hk.
  apply merge_body_inv in H
    as [-> | (nb & a1 & a2 & a3 & a4 & _ & H1 & H2 & H3 & H4 & ->)];
    [exact Hk|]. cbn [fst] in *. unfold sentinel_at in *.
  eapply arr_write_keeps_sentinel; [right; reflexivity | exact H4 |].
  eapply arr_write_keeps_sentinel; [left; reflexivity | exact H3 |].
  eapply arr_write_keeps_sentinel; [right; reflexivity | exact H2 |].
  eapply arr_write_keeps_sentinel; [left; reflexivity | exact H1 | exact Hk].
Qed.

Lemma merge_body_grows (st st' : merge_state) (posn : nat * nat) :
  merge_body hypot arctan st posn = Ok st' ->
  exists rest, snd st' = snd st ++ rest.
Proof.
  destruct st as [bl mg]. intros H.
  apply merge_body_inv in H
    as [-> | (nb & a1 & a2 & a3 & a4 & _ & _ & _ & _ & _ & ->)]; cbn [snd].
  - exists []. now rewrite app_nil_r.
  - eauto.
Qed.

Lemma merge_loop_keeps_sentinel (overlaps : list (nat * nat)) (st st' : merge_state)
      (k : nat) (y x : float) (t : row) :
  foldM (merge_body hypot arctan) st overlaps = Ok st' ->
  sentinel_at (fst st) k y x t -> sentinel_at (fst st') k y x t.
Proof.
  revert st; induction overlaps as [|p ov IH]; intros st H Hk; cbn in H.
  - now injection H as <-.
  - apply bind_Ok_inv in H as (st1 & Hstep & H).
    apply (IH st1 H). exact (merge_body_keeps_sentinel _ _ _ _ _ _ _ Hstep Hk).
Qed.

Lemma merge_loop_grows (overlaps : list (nat * nat)) (st st' : merge_state) :
  foldM (merge_body hypot arctan) st overlaps = Ok st' ->
  exists rest, snd st' = snd st ++ rest.
Proof.
  revert st; induction overlaps as [|p ov IH]; intros st H; cbn in H.
  - injection H as <-. exists []. now rewrite app_nil_r.
  - apply bind_Ok_inv in H as (st1 & Hstep & H).
    destruct (merge_body_grows _ _ _ Hstep) as (r1 & E1).
    destruct (IH st1 H) as (r2 & E2). exists (r1 ++ r2).
    now rewrite E2, E1, app_assoc.
Qed.

(** The turn of the loop on two rows of equal semi-major axis [r]: they
    are merged whatever their semi-minor axes, since [~is_ellipse] is -1
    or -2 and both count as true. *)
Lemma merge_body_equal_semi_major (bl mg : ndarray) (i j : nat)
      (y1 x1 r b1 p1 y2 x2 b2 p2 d : float) :
  i <> j ->
  nth_error bl i = Some [y1; x1; r; b1; p1] ->
  nth_error bl j = Some [y2; x2; r; b2; p2] ->
  (r =? r) = true ->
  hypot (y1 - y2) (x1 - x2) = Ok d ->
  exists bl',
    merge_body hypot arctan (bl, mg) (i, j)
    = Ok (bl', mg ++ [[(y1 + y2) / 2; (x1 + x2) / 2; r + d / 2; r;
                       if arctan ((y1 - y2) / (x1 - x2)) <? 0
                       then arctan ((y1 - y2) / (x1 - x2)) + pi
                       else arctan ((y1 - y2) / (x1 - x2))]])
    /\ sentinel_at bl' i y1 x1 [p1] /\ sentinel_at bl' j y2 x2 [p2].
Proof.
  intros Hne Hi Hj Hr Hd.
  pose (a1 := arr_set bl i [y1; x1; -1; b1; p1]).
  pose (a2 := arr_set a1 i [y1; x1; -1; -1; p1]).
  pose (a3 := arr_set a2 j [y2; x2; -1; b2; p2]).
  pose (a4 := arr_set a3 j [y2; x2; -1; -1; p2]).
  assert (H1i : nth_error a1 i = Some [y1; x1; -1; b1; p1])
    by exact (nth_error_arr_set_eq _ _ _ _ Hi).
  assert (H2i : nth_error a2 i = Some [y1; x1; -1; -1; p1])
    by exact (nth_error_arr_set_eq _ _ _ _ H1i).
  assert (H2j : nth_error a2 j = Some [y2; x2; r; b2; p2]).
  { unfold a2, a1. now rewrite !nth_error_arr_set_neq by exact Hne. }
  assert (H3j : nth_error a3 j = Some [y2; x2; -1; b2; p2])
    by exact (nth_error_arr_set_eq _ _ _ _ H2j).
  exists a4. split; [|split].
  - unfold merge_body, py_or, elongated, merge_to_ellipse.
    rewrite (arr_row_nth_error _ _ _ Hi), (arr_row_nth_error _ _ _ Hj).
    cbn [row_get nth_error bind]. rewrite Hr, Hd.
    assert (Hcond : forall is_ellipse,
               np_logical_and true (py_invert is_ellipse) = true)
      by (intros []; reflexivity).
    destruct (fneq r b1); cbn [bind]; [|destruct (fneq r b2); cbn [bind]];
      rewrite Hcond; cbn [bind];
      rewrite (arr_write_at bl i 2 (-1) _ [y1; x1; -1; b1; p1] Hi eq_refl);
      cbn [bind]; fold a1;
      rewrite (arr_write_at a1 i 3 (-1) _ [y1; x1; -1; -1; p1] H1i eq_refl);
      cbn [bind]; fold a2;
      rewrite (arr_write_at a2 j 2 (-1) _ [y2; x2; -1; b2; p2] H2j eq_refl);
      cbn [bind]; fold a3;
      rewrite (arr_write_at a3 j 3 (-1) _ [y2; x2; -1; -1; p2] H3j eq_refl);
      reflexivity.
  - unfold sentinel_at, a4, a3.
    rewrite !nth_error_arr_set_neq by congruence. exact H2i.
  - exact (nth_error_arr_set_eq _ _ _ _ H3j).
Qed.

Lemma filterM_still_valid (a kept : ndarray) :
  filterM still_valid a = Ok kept ->
  kept = filter (fun b => fgt (nth 2 b 0) 0) a.
Proof.
  revert kept; induction a as [|b a IH]; cbn; intros kept H.
  - now injection H as <-.
  - apply bind_Ok_inv in H as (keep & Hk & H).
    apply bind_Ok_inv in H as (ys & Hys & H). injection H as <-.
    unfold still_valid in Hk. apply bind_Ok_inv in Hk as (v & Hv & Hk).
    injection Hk as <-. rewrite (row_get_nth _ _ _ 0 Hv), (IH ys Hys).
    reflexivity.
Qed.

Lemma in_merge_overlaps (min_distance_merge : float) (cond_arr : list float)
      (n i j : nat) :
  In (i, j) (merge_overlaps arccos min_distance_merge cond_arr n) -> i < j < n.
Proof.
  unfold merge_overlaps. rewrite in_np_where. intros (v & Hin & _).
  exact (in_combine_upper_pairs _ _ _ _ Hin).
Qed.

(** C1, as the code has it.  Let [(i, j)] be a pair that the loop of
    [_merge_blobs] visits (its overlap lies in the merge band), and let
    the two rows, as the loop finds them, be circular with the same
    positive semi-major axis [r], so that neither carries the sentinel of
    an earlier merge.  Then this turn of the loop appends exactly one row
    to [merged_blobs]: centre the midpoint of the two centres, semi-major
    axis [r + d/2] for [d] the centre distance, semi-minor axis [r],
    position angle [arctan((y1-y2)/(x1-x2))] with [pi] added when it is
    negative.  Both rows carry the sentinel from then on, and when
    [_merge_blobs] returns, its result is the rows of the array with
    [b[2] > 0], which excludes rows [i] and [j], followed by
    [merged_blobs], which holds the new row. *)
Theorem merge_blobs_merges_equal_circles
        (blobs_array : ndarray) (min_distance_merge : float) (cond_arr : list float)
        (pre post : list (nat * nat)) (i j : nat) (bl mg : ndarray)
        (y1 x1 r p1 y2 x2 p2 d : float) (out : ndarray) :
  pdist (overlap_metric hypot arccos bbox areas) blobs_array = Ok cond_arr ->
  merge_overlaps arccos min_distance_merge cond_arr (List.length blobs_array)
  = pre ++ (i, j) :: post ->
  foldM (merge_body hypot arctan) (blobs_array, []) pre = Ok (bl, mg) ->
  nth_error bl i = Some [y1; x1; r; r; p1] ->
  nth_error bl j = Some [y2; x2; r; r; p2] ->
  fgt r 0 = true ->
  hypot (y1 - y2) (x1 - x2) = Ok d ->
  _merge_blobs hypot arccos arctan bbox areas blobs_array min_distance_merge = Ok out ->
  exists bl' final rest,
    merge_body hypot arctan (bl, mg) (i, j)
    = Ok (bl', mg ++ [[(y1 + y2) / 2; (x1 + x2) / 2; r + d / 2; r;
                       if arctan ((y1 - y2) / (x1 - x2)) <? 0
                       then arctan ((y1 - y2) / (x1 - x2)) + pi
                       else arctan ((y1 - y2) / (x1 - x2))]])
    /\ foldM (merge_body hypot arctan) (blobs_array, []) (pre ++ (i, j) :: post)
       = Ok (final,
             mg ++ [(y1 + y2) / 2; (x1 + x2) / 2; r + d / 2; r;
                    if arctan ((y1 - y2) / (x1 - x2)) <? 0
                    then arctan ((y1 - y2) / (x1 - x2)) + pi
                    else arctan ((y1 - y2) / (x1 - x2))] :: rest)
    /\ sentinel_at final i y1 x1 [p1]
    /\ sentinel_at final j y2 x2 [p2]
    /\ out = filter (fun b => fgt (nth 2 b 0) 0) final
             ++ mg ++ [(y1 + y2) / 2; (x1 + x2) / 2; r + d / 2; r;
                       if arctan ((y1 - y2) / (x1 - x2)) <? 0
                       then arctan ((y1 - y2) / (x1 - x2)) + pi
                       else arctan ((y1 - y2) / (x1 - x2))] :: rest.
Proof.
  intros Hp Hov Hpre Hi Hj Hr Hd Hout.
  assert (Hne : i <> j).
  { assert (Hin : In (i, j) (merge_overlaps arccos min_distance_merge cond_arr
                                            (List.length blobs_array)))
      by (rewrite Hov; apply in_elt).
    apply in_merge_overlaps in Hin. lia. }
  destruct (fltb_eq_self _ _ Hr) as [_ Hrr].
  destruct (merge_body_equal_semi_major bl mg i j y1 x1 r r p1 y2 x2 r p2 d
                                       Hne Hi Hj Hrr Hd)
    as (bl' & Hstep & Hsi & Hsj).
  unfold _merge_blobs in Hout. rewrite Hp in Hout. cbn [bind] in Hout.
  rewrite Hov in Hout.
  apply bind_Ok_inv in Hout as ([final merged] & Hloop & Hout).
  apply bind_Ok_inv in Hout as (kept & Hkept & Hstack).
  assert (Hpost : foldM (merge_body hypot arctan) (bl', mg ++ [[(y1 + y2) / 2; (x1 + x2) / 2; r + d / 2; r;
                       if arctan ((y1 - y2) / (x1 - x2)) <? 0
                       then arctan ((y1 - y2) / (x1 - x2)) + pi
                       else arctan ((y1 - y2) / (x1 - x2))]]) post
                  = Ok (final, merged)).
  { rewrite foldM_app, Hpre in Hloop. cbn [bind foldM] in Hloop.
    rewrite Hstep in Hloop. exact Hloop. }
  destruct (merge_loop_grows _ _ _ Hpost) as (rest & Hrest). cbn [snd] in Hrest.
  rewrite <- app_assoc in Hrest. cbn [app] in Hrest. subst merged.
  exists bl', final, rest. split; [exact Hstep|]. split; [exact Hloop|].
  split; [exact (merge_loop_keeps_sentinel _ _ _ _ _ _ _ Hpost Hsi)|].
  split; [exact (merge_loop_keeps_sentinel _ _ _ _ _ _ _ Hpost Hsj)|].
  unfold vstack_merged in Hstack.
  destruct (ncols kept =? 5)%nat; [|discriminate].
  injection Hstack as <-. now rewrite (filterM_still_valid _ _ Hkept).
Qed.

End MergeFacts.

(** C1: a circle of radius 2 inside a circle of radius 4.  Both rows are
    circular and their overlap, 1, lies in the merge band, yet
    [_merge_blobs] returns the list unchanged: the radii differ.  And
    two circles with the same centre merge into a row whose position
    angle is [arctan(0/0)], NaN, which lies in no interval. *)
Lemma merge_blobs_keeps_unequal_circles :
  overlap_metric Libm.hypot Libm.arccos Sample.bbox Sample.areas
                 [0; 0; 4; 4; 0] [0; 1; 2; 2; 0] = Ok 1
  /\ fgt 1 (_min_merge_overlap Libm.arccos 1) = true
  /\ (1 <=? 1) = true
  /\ _merge_blobs Libm.hypot Libm.arccos Libm.arctan Sample.bbox Sample.areas
                  Sample.nested 1
     = Ok Sample.nested
  /\ merge_to_ellipse Libm.hypot Libm.arctan [3; 4; 2; 2; 0] [3; 4; 2; 2; 0]
     = Ok [3; 4; 2; 2; nan].
Proof. repeat split; vm_compute; reflexivity. Qed.

Lemma merge_blobs_merges_equal_circles_witness :
  exists final rest,
    sentinel_at final 0 0 0 [0]
    /\ sentinel_at final 1 3 2 [0]
    /\ _merge_blobs Libm.hypot Libm.arccos Libm.arctan Sample.bbox Sample.areas
                    Sample.mergeable 1
       = Ok (filter (fun b => fgt (nth 2 b 0) 0) final
             ++ [] ++ [(0 + 3) / 2; (0 + 2) / 2; 4 + sqrt 13 / 2; 4;
                       if Libm.arctan ((0 - 3) / (0 - 2)) <? 0
                       then Libm.arctan ((0 - 3) / (0 - 2)) + pi
                       else Libm.arctan ((0 - 3) / (0 - 2))] :: rest).
Proof.
  assert (Hex : exists out,
             _merge_blobs Libm.hypot Libm.arccos Libm.arctan Sample.bbox Sample.areas
                          Sample.mergeable 1 = Ok out)
    by (vm_compute; eauto).
  destruct Hex as [out Hout].
  edestruct (merge_blobs_merges_equal_circles
               Libm.hypot Libm.arccos Libm.arctan Sample.bbox Sample.areas
               Sample.mergeable 1)
    with (pre := @nil (nat * nat)) (post := @nil (nat * nat))
         (i := 0%nat) (j := 1%nat)
         (y1 := 0) (x1 := 0) (r := 4) (p1 := 0) (y2 := 3) (x2 := 2) (p2 := 0)
         (d := sqrt 13) (out := out)
    as (bl' & final & rest & _ & _ & Hsi & Hsj & Hfin).
  - vm_compute. reflexivity.
  - vm_compute. reflexivity.
  - reflexivity.
  - reflexivity.
  - reflexivity.
  - reflexivity.
  - vm_compute. reflexivity.
  - exact Hout.
  - exists final, rest. split; [exact Hsi|]. split; [exact Hsj|].
    rewrite Hout. f_equal. exact Hfin.
Defined.

(** C3 at the sample chain.  The loop visits the pairs (0,2), (1,3) and
    (2,3).  The first two turns merge rows 0 and 2 and rows 1 and 3 and
    leave the sentinel on all four.  The third turn finds rows 2 and 3
    both carrying the sentinel, takes them for two circles of equal
    radius -1, and merges them again: the result holds three merged rows
    for four consumed rows, the last with semi-minor axis -1. *)
Theorem merge_blobs_reuses_consumed_rows
        (bbox : float -> float -> float -> float -> float ->
                (float * float) * (float * float))
        (areas : float -> float * float -> float * float ->
                 float * float * float * float * float ->
                 float * float * float * float * float -> Z * Z * Z) :
  exists cond_arr bl mg,
    pdist (overlap_metric Libm.hypot Libm.arccos bbox areas) Sample.chain
    = Ok cond_arr
    /\ merge_overlaps Libm.arccos 1 cond_arr 5
       = [(0, 2); (1, 3); (2, 3)]%nat
    /\ foldM (merge_body Libm.hypot Libm.arctan) (Sample.chain, [])
             [(0, 2); (1, 3)]%nat = Ok (bl, mg)
    /\ sentinel_at bl 2 0 0 [0]
    /\ sentinel_at bl 3 0 3 [0]
    /\ merge_body Libm.hypot Libm.arctan (bl, mg) (2, 3)%nat
       = Ok (bl, mg ++ [[(0 + 0) / 2; (0 + 3) / 2; -1 + 3 / 2; -1;
                         Libm.arctan ((0 - 0) / (0 - 3))]])
    /\ _merge_blobs Libm.hypot Libm.arccos Libm.arctan bbox areas Sample.chain 1
       = Ok ([100; 100; 4; 4; 0]
             :: mg ++ [[(0 + 0) / 2; (0 + 3) / 2; -1 + 3 / 2; -1;
                        Libm.arctan ((0 - 0) / (0 - 3))]]).
Proof.
  do 3 eexists.
  split; [vm_compute; reflexivity|].
  split; [vm_compute; reflexivity|].
  split; [vm_compute; reflexivity|].
  repeat split; vm_compute; reflexivity.
Qed.

(* ================================================================== *)
(** ** The detector *)

Section BlobLogFacts.

Variable hypot : float -> float -> result float.
Variable arccos : float -> float.
Variable arctan : float -> float.
Variable bbox :
  float -> float -> float -> float -> float -> (float * float) * (float * float).
Variable areas :
  float -> float * float -> float * float ->
  float * float * float * float * float ->
  float * float * float * float * float -> Z * Z * Z.
Variable img_as_float : image -> image.
Variable gaussian_laplace : image -> float -> image.
Variable peak_local_max : image -> float -> float -> list (Z * Z).
Variable math_log : float -> float -> result float.
Variable np_logspace : float -> float -> Z -> result (list float).
Variable np_linspace : float -> float -> Z -> result (list float).
Variable py_int : float -> result Z.
Variable py_pow : float -> Z -> result float.

(** With no [sigma_list], a [scale_choice] that is none of the three
    literals raises the [ValueError] of [blob_log]. *)
Lemma blob_log_unknown_scale_choice
      (img : image) (scale_choice : str) (min_sigma max_sigma : float)
      (num_sigma : Z) (threshold overlap sigma_ratio : float)
      (weighting : option (list float)) (merge_overlap_dist : float) :
  str_is scale_choice "log" = false ->
  str_is scale_choice "linear" = false ->
  str_is scale_choice "ratio" = false ->
  blob_log hypot arccos arctan bbox areas img_as_float gaussian_laplace
           peak_local_max math_log np_logspace np_linspace py_int py_pow
           img None scale_choice min_sigma max_sigma num_sigma
           threshold overlap sigma_ratio weighting merge_overlap_dist
  = Raise scale_choice_error.
Proof.
  intros H1 H2 H3. unfold blob_log, default_sigma_list.
  rewrite H1, H2, H3. reflexivity.
Qed.

(** A [weighting] whose length differs from that of the scales raises
    the [IndexError] of [blob_log]. *)
Lemma blob_log_weighting_mismatch
      (img : image) (sigma_list : option (list float)) (scale_choice : str)
      (min_sigma max_sigma : float)
      (num_sigma : Z) (threshold overlap sigma_ratio : float)
      (w : list float) (merge_overlap_dist : float) (scales : list float) :
  match sigma_list with
  | None => default_sigma_list math_log np_logspace np_linspace py_int py_pow
                               scale_choice min_sigma max_sigma num_sigma sigma_ratio
  | Some sl => Ok sl
  end = Ok scales ->
  List.length w <> List.length scales ->
  blob_log hypot arccos arctan bbox areas img_as_float gaussian_laplace
           peak_local_max math_log np_logspace np_linspace py_int py_pow
           img sigma_list scale_choice min_sigma max_sigma num_sigma
           threshold overlap sigma_ratio (Some w) merge_overlap_dist
  = Raise (weighting_error (List.length scales)).
Proof.
  intros Hs Hlen. unfold blob_log. rewrite Hs. cbn [bind check_weighting].
  apply Nat.eqb_neq in Hlen. rewrite Hlen. reflexivity.
Qed.

(** C8 at a string built at run time.  With no [sigma_list], a
    [scale_choice] whose characters are [log] but which is not the
    interned literal raises the [ValueError] for an unknown
    [scale_choice]: the code compares with [is]. *)
Theorem blob_log_rejects_equal_scale_choice
        (img : image) (min_sigma max_sigma : float)
        (num_sigma : Z) (threshold overlap sigma_ratio : float)
        (weighting : option (list float)) (merge_overlap_dist : float) :
  chars (mk_str "log" false) = chars (lit "log")
  /\ blob_log hypot arccos arctan bbox areas img_as_float gaussian_laplace
              peak_local_max math_log np_logspace np_linspace py_int py_pow
              img None (mk_str "log" false) min_sigma max_sigma num_sigma
              threshold overlap sigma_ratio weighting merge_overlap_dist
     = Raise scale_choice_error.
Proof. split; reflexivity. Qed.

(** C9.  When the scales, the weights and the response stack are built
    and no slice has a maximum, [blob_log] returns the empty list and the
    response stack.  The statement holds for every [hypot], [arccos],
    [arctan] and pixel kernel, also for ones that raise on every call:
    no overlap is computed, nothing is merged, nothing is pruned. *)
Theorem blob_log_no_candidates
        (img : image) (sigma_list : option (list float)) (scale_choice : str)
        (min_sigma max_sigma : float)
        (num_sigma : Z) (threshold overlap sigma_ratio : float)
        (weighting : option (list float)) (merge_overlap_dist : float)
        (scales weights : list float) (image_cube : cube) :
  match sigma_list with
  | None => default_sigma_list math_log np_logspace np_linspace py_int py_pow
                               scale_choice min_sigma max_sigma num_sigma sigma_ratio
  | Some sl => Ok sl
  end = Ok scales ->
  check_weighting weighting scales = Ok weights ->
  response_stack gaussian_laplace (img_as_float img) scales weights = Ok image_cube ->
  scale_space_maxima peak_local_max image_cube scales threshold = [] ->
  blob_log hypot arccos arctan bbox areas img_as_float gaussian_laplace
           peak_local_max math_log np_logspace np_linspace py_int py_pow
           img sigma_list scale_choice min_sigma max_sigma num_sigma
           threshold overlap sigma_ratio weighting merge_overlap_dist
  = Ok ([], image_cube).
Proof.
  intros Hs Hw Hc Hm. unfold blob_log. rewrite Hs. cbn [bind].
  rewrite Hw. cbn [bind]. rewrite Hc. cbn [bind]. rewrite Hm. reflexivity.
Qed.

End BlobLogFacts.

Lemma blob_log_no_candidates_witness :
  blob_log (fun _ _ => Raise (OverflowError "math range error"))
           Libm.arccos Libm.arctan Sample.bbox Sample.areas
           Sample.same_image Sample.unfiltered Sample.no_peaks
           Sample.log_unused Sample.space_unused Sample.space_unused
           Sample.int_unused Sample.pow_unused
           Sample.flat_image (Some [2; 3]) (lit "linear") 1 50 10
           0.2 0.5 2 None 1
  = Ok ([], [img_scale (img_scale Sample.flat_image (np_sq 2)) 1;
             img_scale (img_scale Sample.flat_image (np_sq 3)) 1]).
Proof.
  apply (blob_log_no_candidates
           (fun _ _ => Raise (OverflowError "math range error"))
           Libm.arccos Libm.arctan Sample.bbox Sample.areas
           Sample.same_image Sample.unfiltered Sample.no_peaks
           Sample.log_unused Sample.space_unused Sample.space_unused
           Sample.int_unused Sample.pow_unused
           Sample.flat_image (Some [2; 3]) (lit "linear") 1 50 10
           0.2 0.5 2 None 1 [2; 3] [1; 1]); reflexivity.
Defined.

(** C7 at a repeated scale.  With the scales [2, 2, 2] and one maximum,
    at pixel (3, 4), on every slice, the three detections coincide; two
    of them are merged into a row whose position angle is
    [arctan(0/0)], NaN, and pruning keeps that row: [blob_log] returns a
    single circular detection whose position angle is NaN. *)
Theorem blob_log_repeated_scale_nan_angle
        (bbox : float -> float -> float -> float -> float ->
                (float * float) * (float * float))
        (areas : float -> float * float -> float * float ->
                 float * float * float * float * float ->
                 float * float * float * float * float -> Z * Z * Z)
        (img_as_float : image -> image)
        (gaussian_laplace : image -> float -> image)
        (math_log : float -> float -> result float)
        (np_logspace np_linspace : float -> float -> Z -> result (list float))
        (py_int : float -> result Z) (py_pow : float -> Z -> result float)
        (img : image) (scale_choice : str) (min_sigma max_sigma : float)
        (num_sigma : Z) (threshold sigma_ratio : float) :
  exists image_cube,
    blob_log Libm.hypot Libm.arccos Libm.arctan bbox areas
             img_as_float gaussian_laplace Sample.one_peak
             math_log np_logspace np_linspace py_int py_pow
             img (Some [2; 2; 2]) scale_choice min_sigma max_sigma num_sigma
             threshold 0.5 sigma_ratio None 1
    = Ok ([[3; 4; 2 * sqrt 2; 2 * sqrt 2; nan]], image_cube)
    /\ Libm.arctan ((3 - 3) / (4 - 4)) = nan
    /\ (nan <? pi) = false /\ (0 <=? nan) = false /\ (nan =? 0) = false.
Proof.
  eexists. split; [|repeat split; vm_compute; reflexivity].
  unfold blob_log. cbn [bind check_weighting map response_stack combine np_dstack].
  vm_compute. reflexivity.
Qed.

Lemma blob_log_unknown_scale_choice_witness :
  blob_log Libm.hypot Libm.arccos Libm.arctan Sample.bbox Sample.areas
           Sample.same_image Sample.unfiltered Sample.no_peaks
           Sample.log_unused Sample.space_unused Sample.space_unused
           Sample.int_unused Sample.pow_unused
           Sample.flat_image None (lit "cubic") 1 50 10 0.2 0.5 2 None 1
  = Raise scale_choice_error.
Proof.
  apply (blob_log_unknown_scale_choice
           Libm.hypot Libm.arccos Libm.arctan Sample.bbox Sample.areas
           Sample.same_image Sample.unfiltered Sample.no_peaks
           Sample.log_unused Sample.space_unused Sample.space_unused
           Sample.int_unused Sample.pow_unused
           Sample.flat_image (lit "cubic") 1 50 10 0.2 0.5 2 None 1);
    reflexivity.
Defined.

Lemma blob_log_weighting_mismatch_witness :
  blob_log Libm.hypot Libm.arccos Libm.arctan Sample.bbox Sample.areas
           Sample.same_image Sample.unfiltered Sample.no_peaks
           Sample.log_unused Sample.space_unused Sample.space_unused
           Sample.int_unused Sample.pow_unused
           Sample.flat_image (Some [2; 3]) (lit "linear") 1 50 10 0.2 0.5 2
           (Some [1]) 1
  = Raise (weighting_error 2).
Proof.
  apply (blob_log_weighting_mismatch
           Libm.hypot Libm.arccos Libm.arctan Sample.bbox Sample.areas
           Sample.same_image Sample.unfiltered Sample.no_peaks
           Sample.log_unused Sample.space_unused Sample.space_unused
           Sample.int_unused Sample.pow_unused
           Sample.flat_image (Some [2; 3]) (lit "linear") 1 50 10 0.2 0.5 2
           [1] 1 [2; 3]).
  - reflexivity.
  - cbn. lia.
Defined.

Lemma prune_shell_fraction_raises_witness :
  _prune_blobs Libm.hypot Libm.arccos Sample.bbox Sample.areas
               Sample.shell_pair 0.9 true
  = Raise cond_unbound.
Proof.
  eapply (prune_shell_fraction_raises
            Libm.hypot Libm.arccos Sample.bbox Sample.areas
            Sample.shell_pair 0.9).
  - vm_compute. reflexivity.
  - vm_compute. reflexivity.
  - vm_compute. reflexivity.
  - vm_compute. reflexivity.
Defined.

(* ================================================================== *)
(** ** What the sentinel does and does not prevent *)

Lemma feqb_sym (x y : float) : (x =? y) = (y =? x).
Proof.
  rewrite !eqb_spec. unfold SFeqb.
  rewrite (SFcompare_swap (Prim2SF x) (Prim2SF y)).
  destruct (SFcompare (Prim2SF x) (Prim2SF y)) as [[]|]; reflexivity.
Qed.

Lemma sentinel_differs_from_positive (r : float) :
  fgt r 0 = true -> (-1 =? r) = false.
Proof.
  unfold fgt. rewrite ltb_spec, eqb_spec. unfold SFltb, SFeqb.
  change (Prim2SF 0) with (S754_zero false).
  change (Prim2SF (-1)) with (S754_finite true 4503599627370496 (-52)).
  destruct (Prim2SF r) as [s|s| |s m e]; cbn; try reflexivity; try discriminate.
  - destruct s; reflexivity.
  - destruct s; cbn; [discriminate | reflexivity].
Qed.

(** A pair made of a row that carries the sentinel and a row whose
    semi-major axis is positive is not merged: the turn of the loop
    leaves the array and [merged_blobs] as they are. *)
Theorem merge_body_skips_half_consumed_pair
        (hypot : float -> float -> result float) (arctan : float -> float)
        (bl mg : ndarray) (i j : nat)
        (y1 x1 a1 b1 p1 y2 x2 a2 b2 p2 : float) :
  nth_error bl i = Some [y1; x1; a1; b1; p1] ->
  nth_error bl j = Some [y2; x2; a2; b2; p2] ->
  (a1 = -1 /\ fgt a2 0 = true) \/ (fgt a1 0 = true /\ a2 = -1) ->
  merge_body hypot arctan (bl, mg) (i, j) = Ok (bl, mg).
Proof.
  intros Hi Hj Hcase.
  assert (Hne : (a1 =? a2) = false).
  { destruct Hcase as [[-> Hpos] | [Hpos ->]].
    - exact (sentinel_differs_from_positive _ Hpos).
    - rewrite feqb_sym. exact (sentinel_differs_from_positive _ Hpos). }
  unfold merge_body, py_or, elongated.
  rewrite (arr_row_nth_error _ _ _ Hi), (arr_row_nth_error _ _ _ Hj).
  cbn [row_get nth_error bind]. rewrite Hne.
  destruct (fneq a1 b1); cbn [bind]; [reflexivity|].
  destruct (fneq a2 b2); reflexivity.
Qed.

Lemma merge_body_skips_half_consumed_pair_witness :
  merge_body Libm.hypot Libm.arctan
             ([[0; 0; -1; -1; 0]; [0; 3; 4; 4; 0]], []) (0, 1)%nat
  = Ok ([[0; 0; -1; -1; 0]; [0; 3; 4; 4; 0]], []).
Proof.
  apply (merge_body_skips_half_consumed_pair
           Libm.hypot Libm.arctan [[0; 0; -1; -1; 0]; [0; 3; 4; 4; 0]] []
           0%nat 1%nat 0 0 (-1) (-1) 0 0 3 4 4 0).
  - reflexivity.
  - reflexivity.
  - left. split; reflexivity.
Defined.

(** When every row is consumed the compacted array is empty, and stacking
    it on [merged_blobs] fails: two circles of radius 4 one pixel apart,
    alone in the list, are merged and [_merge_blobs] raises. *)
Lemma merge_blobs_all_consumed_raises
      (bbox : float -> float -> float -> float -> float ->
              (float * float) * (float * float))
      (areas : float -> float * float -> float * float ->
               float * float * float * float * float ->
               float * float * float * float * float -> Z * Z * Z) :
  _merge_blobs Libm.hypot Libm.arccos Libm.arctan bbox areas Sample.tie 1
  = Raise vstack_mismatch.
Proof. vm_compute. reflexivity. Qed.

(* ================================================================== *)
(** ** The order of binary64 values *)

Lemma SFltb_key (x y : spec_float) :
  SFltb x y = true
  <-> x <> S754_nan /\ y <> S754_nan /\ key_lt (SFkey x) (SFkey y).
Proof.
  unfold SFltb.
  destruct x as [sx| sx| |sx mx ex], y as [sy| sy| |sy my ey]; cbn;
    try (destruct sx); try (destruct sy); cbn;
    try (split; [intros Hc; try discriminate Hc; repeat split; try congruence; lia
                | intros (Hc1 & Hc2 & Hc3); try congruence; try reflexivity; lia]).
  all: change (PosDef.Pos.compare_cont Eq mx my) with (Pos.compare mx my).
  all: destruct (Z.compare_spec ex ey); destruct (Pos.compare_spec mx my); cbn;
    (split; [intros Hc; try discriminate Hc; repeat split; try congruence; lia
            | intros (Hc1 & Hc2 & Hc3); try reflexivity; lia]).
Qed.

Lemma key_lt_trans (k1 k2 k3 : Z * Z * Z) :
  key_lt k1 k2 -> key_lt k2 k3 -> key_lt k1 k3.
Proof.
  destruct k1 as [[a1 b1] c1], k2 as [[a2 b2] c2], k3 as [[a3 b3] c3]. cbn. lia.
Qed.

Lemma key_lt_total (k1 k2 : Z * Z * Z) : key_lt k1 k2 \/ k1 = k2 \/ key_lt k2 k1.
Proof.
  destruct k1 as [[a1 b1] c1], k2 as [[a2 b2] c2]. cbn.
  destruct (Z.lt_total a1 a2) as [|[|]]; destruct (Z.lt_total b1 b2) as [|[|]];
    destruct (Z.lt_total c1 c2) as [|[|]]; subst; auto 10; lia.
Qed.

(** A float equals itself exactly when it is not NaN. *)
Lemma feqb_self_not_nan (x : float) : (x =? x) = true <-> Prim2SF x <> S754_nan.
Proof.
  rewrite eqb_spec. unfold SFeqb.
  destruct (Prim2SF x) as [s|s| |s m e]; cbn;
    [destruct s | destruct s | |
     rewrite Z.compare_refl;
     change (PosDef.Pos.compare_cont Eq m m) with (Pos.compare m m);
     rewrite Pos.compare_refl; destruct s];
    cbn; split; intros H; try congruence; try reflexivity;
    exfalso; apply H; reflexivity.
Qed.

Lemma fltb_trans (x y z : float) :
  (x <? y) = true -> (y <? z) = true -> (x <? z) = true.
Proof.
  rewrite !ltb_spec, !SFltb_key. intros (Hx & Hy & H1) (_ & Hz & H2).
  repeat split; auto. eapply key_lt_trans; eauto.
Qed.

(** [c <= a < b] gives [c < b], for a number [c]. *)
Lemma fltb_le_lt_trans (a b c : float) :
  (c =? c) = true -> (a <? c) = false -> (a <? b) = true -> (c <? b) = true.
Proof.
  rewrite feqb_self_not_nan, !ltb_spec. intros Hc Hac Hab.
  apply SFltb_key in Hab as (Ha & Hb & Hab). apply SFltb_key.
  repeat split; auto.
  destruct (key_lt_total (SFkey (Prim2SF a)) (SFkey (Prim2SF c))) as [Hlt|[Heq|Hgt]].
  - assert (SFltb (Prim2SF a) (Prim2SF c) = true) by (apply SFltb_key; auto).
    congruence.
  - rewrite <- Heq. exact Hab.
  - eapply key_lt_trans; eauto.
Qed.

Lemma fltb_irrefl (x : float) : (x <? x) = false.
Proof.
  destruct (x <? x) eqn:E; [|reflexivity]. now rewrite (fltb_asym _ _ E) in E.
Qed.

Lemma fltb_not_leb (x y : float) : (x <? y) = true -> (y <=? x) = false.
Proof.
  rewrite ltb_spec, leb_spec. unfold SFltb, SFleb.
  rewrite (SFcompare_swap (Prim2SF x) (Prim2SF y)).
  destruct (SFcompare (Prim2SF x) (Prim2SF y)) as [[]|]; cbn;
    intros; try discriminate; auto.
Qed.

(** In a non-empty list of numbers, the last position of the largest
    value: nothing before it is larger, everything after it is
    smaller. *)
Lemma last_largest (l : list float) :
  l <> [] ->
  (forall x, In x l -> (x =? x) = true) ->
  exists k,
    k < List.length l
    /\ (forall i, i < k -> fgt (nth i l 0) (nth k l 0) = false)
    /\ (forall j, k < j < List.length l -> fgt (nth k l 0) (nth j l 0) = true).
Proof.
  induction l as [|x l IH]; intros Hne Hnum; [congruence|].
  destruct l as [|y l'].
  - exists 0%nat. cbn. repeat split; intros; lia.
  - destruct IH as (k & Hk & Hbefore & Hafter);
      [discriminate | intros z Hz; apply Hnum; right; exact Hz |].
    set (l := y :: l') in *.
    destruct (fgt x (nth k l 0)) eqn:Hx.
    + exists 0%nat. split; [cbn; lia|]. split; [intros; lia|].
      intros [|j] Hj; [lia|]. cbn [nth List.length] in *.
      unfold fgt in *.
      destruct (Nat.lt_total j k) as [Hlt|[->|Hgt]].
      * apply (fltb_le_lt_trans (nth k l 0) x (nth j l 0)).
        -- apply Hnum. right. apply nth_In. lia.
        -- exact (Hbefore j Hlt).
        -- exact Hx.
      * exact Hx.
      * apply (fltb_trans _ (nth k l 0)); [apply Hafter; lia | exact Hx].
    + exists (S k). split; [cbn [List.length]; lia|]. split.
      * intros [|i] Hi; cbn [nth]; [exact Hx | apply Hbefore; lia].
      * intros [|j] Hj; [lia|]. cbn [nth List.length] in *. apply Hafter. lia.
Qed.

(* ================================================================== *)
(** ** More on pruning *)

Lemma map_arr_row_seq (a : ndarray) : map (arr_row a) (seq 0 (List.length a)) = a.
Proof.
  induction a as [|b a IH]; [reflexivity|].
  cbn [List.length seq map]. unfold arr_row at 1. cbn [nth]. f_equal.
  rewrite <- seq_shift, map_map. exact IH.
Qed.

Lemma np_delete_nil (a : ndarray) : np_delete a [] = a.
Proof.
  unfold np_delete. rewrite (filter_ext _ (fun _ => true)) by reflexivity.
  replace (filter (fun _ : nat => true) (seq 0 (List.length a)))
    with (seq 0 (List.length a))
    by (symmetry; apply forallb_filter_id; apply forallb_forall; reflexivity).
  apply map_arr_row_seq.
Qed.

Lemma mapM_total {X Y : Type} (f : X -> result Y) (xs : list X) :
  (forall x, In x xs -> exists y, f x = Ok y) -> exists ys, mapM f xs = Ok ys.
Proof.
  induction xs as [|x xs IH]; intros H; cbn; [eauto|].
  destruct (H x (or_introl eq_refl)) as (y & ->).
  destruct (IH (fun z Hz => H z (or_intror Hz))) as (ys & ->). cbn. eauto.
Qed.

Lemma arr_row_map (f : row -> row) (a : ndarray) (k : nat) :
  f [] = [] -> arr_row (map f a) k = f (arr_row a k).
Proof.
  intros Hf. unfold arr_row. rewrite <- Hf at 1. apply map_nth.
Qed.

Lemma slicer_nil (use_shell_fraction : bool) : slicer use_shell_fraction [] = [].
Proof. destruct use_shell_fraction; reflexivity. Qed.

Lemma nth_sorted (l : list nat) (a b : nat) :
  StronglySorted lt l -> a < b < List.length l -> nth a l 0%nat < nth b l 0%nat.
Proof.
  intros Hs. revert a b. induction Hs as [|x l Hs IH Hx]; intros a b Hab;
    [cbn in Hab; lia|].
  destruct b as [|b]; [lia|]. cbn [List.length] in Hab. destruct a as [|a]; cbn [nth].
  - rewrite Forall_forall in Hx. apply Hx, nth_In. lia.
  - apply IH. lia.
Qed.

Section PruneMore.

Variable hypot : float -> float -> result float.
Variable arccos : float -> float.
Variable bbox :
  float -> float -> float -> float -> float -> (float * float) * (float * float).
Variable areas :
  float -> float * float -> float * float ->
  float * float * float * float * float ->
  float * float * float * float * float -> Z * Z * Z.

(** With no pair to visit, the loop does not run and [np.delete] removes
    nothing. *)
Lemma prune_no_overlaps (use_shell_fraction : bool) (blobs_array : ndarray)
      (overlap : float) (cond_arr : list float) :
  pdist (overlap_metric hypot arccos bbox areas)
        (map (slicer use_shell_fraction) blobs_array) = Ok cond_arr ->
  prune_overlaps overlap cond_arr (List.length blobs_array) = [] ->
  _prune_blobs hypot arccos bbox areas blobs_array overlap use_shell_fraction
  = Ok blobs_array.
Proof.
  intros Hp Hov. unfold _prune_blobs. rewrite Hp. cbn [bind]. rewrite Hov.
  cbn [foldM bind fst nodup]. now rewrite np_delete_nil.
Qed.

Lemma prune_below_threshold (use_shell_fraction : bool) (blobs_array : ndarray)
      (overlap : float) :
  (forall i j, i < j < List.length blobs_array ->
     exists v,
       overlap_metric hypot arccos bbox areas
                      (slicer use_shell_fraction (arr_row blobs_array i))
                      (slicer use_shell_fraction (arr_row blobs_array j)) = Ok v
       /\ fge v overlap = false) ->
  _prune_blobs hypot arccos bbox areas blobs_array overlap use_shell_fraction
  = Ok blobs_array.
Proof.
  intros Hlow.
  assert (Hrow : forall k, arr_row (map (slicer use_shell_fraction) blobs_array) k
                           = slicer use_shell_fraction (arr_row blobs_array k))
    by (intros k; apply arr_row_map, slicer_nil).
  destruct (mapM_total
              (fun p => overlap_metric hypot arccos bbox areas
                          (arr_row (map (slicer use_shell_fraction) blobs_array) (fst p))
                          (arr_row (map (slicer use_shell_fraction) blobs_array) (snd p)))
              (upper_pairs (List.length (map (slicer use_shell_fraction) blobs_array))))
    as (cond_arr & Hp).
  { intros [i j] Hin. rewrite length_map in Hin. apply in_upper_pairs in Hin.
    cbn [fst snd]. rewrite !Hrow. destruct (Hlow i j Hin) as (v & Hv & _). eauto. }
  apply (prune_no_overlaps _ _ _ cond_arr Hp).
  unfold prune_overlaps, np_where.
  destruct (filter _ _) as [|[[i j] v] rest] eqn:Hf; [reflexivity|].
  assert (Hin : In ((i, j), v)
                   (filter (fun e => fge (snd e) overlap)
                           (dist_uppertri cond_arr (List.length blobs_array))))
    by (rewrite Hf; left; reflexivity).
  apply filter_In in Hin as [Hin Hv]. cbn [snd] in Hv.
  pose proof (in_combine_upper_pairs _ _ _ _ Hin) as Hij. cbn [fst snd] in Hij.
  rewrite <- (length_map (slicer use_shell_fraction)) in Hin.
  pose proof (pdist_entry _ _ _ _ _ _ Hp Hin) as Hm. rewrite !Hrow in Hm.
  destruct (Hlow i j Hij) as (w & Hw & Hlt). congruence.
Qed.

(** When no pair of rows reaches the threshold, a positive one as
    every caller passes, [_prune_blobs] returns the array as it is, with
    or without [use_shell_fraction]. *)
Theorem prune_unchanged_below_threshold (use_shell_fraction : bool)
        (blobs_array : ndarray) (overlap : float) :
  fgt overlap 0 = true ->
  (forall i j, i < j < List.length blobs_array ->
     exists v,
       overlap_metric hypot arccos bbox areas
                      (slicer use_shell_fraction (arr_row blobs_array i))
                      (slicer use_shell_fraction (arr_row blobs_array j)) = Ok v
       /\ fge v overlap = false) ->
  _prune_blobs hypot arccos bbox areas blobs_array overlap use_shell_fraction
  = Ok blobs_array.
Proof.
  intros _. exact (prune_below_threshold use_shell_fraction blobs_array overlap).
Qed.

(** Pruning twice is pruning once: what [_prune_blobs] returns (without
    [use_shell_fraction], for a positive threshold) it returns unchanged
    when called again with the same threshold. *)
Theorem prune_idempotent (blobs_array : ndarray) (overlap : float)
        (cond_arr : list float) :
  fgt overlap 0 = true ->
  pdist (overlap_metric hypot arccos bbox areas) blobs_array = Ok cond_arr ->
  exists out,
    _prune_blobs hypot arccos bbox areas blobs_array overlap false = Ok out
    /\ _prune_blobs hypot arccos bbox areas out overlap false = Ok out.
Proof.
  intros _ Hp.
  set (removed := map (marked blobs_array)
                      (prune_overlaps overlap cond_arr (List.length blobs_array))).
  set (S := survivors_of (List.length blobs_array) removed).
  exists (map (arr_row blobs_array) S).
  split; [exact (prune_plain_result _ _ _ _ _ _ _ Hp)|].
  apply prune_below_threshold. rewrite length_map. intros a b Hab.
  assert (Hsorted : StronglySorted lt S)
    by (apply StronglySorted_filter, StronglySorted_seq).
  assert (Hrow : forall c, c < List.length S ->
                           arr_row (map (arr_row blobs_array) S) c
                           = arr_row blobs_array (nth c S 0%nat)).
  { intros c Hc. unfold arr_row at 1.
    rewrite (nth_indep _ [] (arr_row blobs_array 0%nat))
      by (rewrite length_map; exact Hc).
    apply map_nth. }
  cbn [slicer]. rewrite !Hrow by lia.
  pose proof (nth_sorted S a b Hsorted Hab) as Hlt.
  assert (Hia : In (nth a S 0%nat) S) by (apply nth_In; lia).
  assert (Hib : In (nth b S 0%nat) S) by (apply nth_In; lia).
  apply in_survivors_of in Hia as [Hna Hra], Hib as [Hnb Hrb].
  destruct (pdist_complete _ _ _ (nth a S 0%nat) (nth b S 0%nat) Hp)
    as (v & _ & Hv); [lia|].
  exists v. split; [exact Hv|].
  destruct (fge v overlap) eqn:Hge; [exfalso | reflexivity].
  assert (Hin : In (nth a S 0%nat, nth b S 0%nat)
                   (prune_overlaps overlap cond_arr (List.length blobs_array)))
    by (apply (in_prune_overlaps _ _ _ _ _ _ _ _ _ Hp); split; [lia | eauto]).
  apply (in_map (marked blobs_array)) in Hin. fold removed in Hin.
  unfold marked in Hin. cbn [fst snd] in Hin.
  destruct (fgt _ _); contradiction.
Qed.

(** Pruning never empties an array: in a non-empty array whose
    semi-major axes are not NaN, the last row of largest semi-major axis
    is marked by no pair and is in the result (without
    [use_shell_fraction], for a positive threshold). *)
Theorem prune_keeps_a_largest (blobs_array : ndarray) (overlap : float)
        (cond_arr : list float) :
  fgt overlap 0 = true ->
  pdist (overlap_metric hypot arccos bbox areas) blobs_array = Ok cond_arr ->
  blobs_array <> [] ->
  (forall k, k < List.length blobs_array ->
             (semi_major blobs_array k =? semi_major blobs_array k) = true) ->
  exists survivors k,
    _prune_blobs hypot arccos bbox areas blobs_array overlap false
    = Ok (map (arr_row blobs_array) survivors)
    /\ In k survivors
    /\ forall i, i < List.length blobs_array ->
                 fgt (semi_major blobs_array i) (semi_major blobs_array k) = false.
Proof.
  intros _ Hp Hne Hnum.
  set (l := map (fun b : row => nth 2 b 0) blobs_array).
  assert (Hl : forall i, nth i l 0 = semi_major blobs_array i).
  { intros i. exact (map_nth (fun b : row => nth 2 b 0) blobs_array [] i). }
  destruct (last_largest l) as (k & Hk & Hbefore & Hafter).
  - unfold l. destruct blobs_array; [congruence | discriminate].
  - intros x Hx. destruct (In_nth _ _ 0 Hx) as (i & Hi & <-).
    rewrite Hl. apply Hnum. unfold l in Hi. now rewrite length_map in Hi.
  - unfold l in Hk, Hafter. rewrite length_map in Hk, Hafter.
    set (removed := map (marked blobs_array)
                        (prune_overlaps overlap cond_arr (List.length blobs_array))).
    exists (survivors_of (List.length blobs_array) removed), k.
    split; [exact (prune_plain_result _ _ _ _ _ _ _ Hp)|]. split.
    + apply in_survivors_of. split; [exact Hk|]. intros Hin.
      apply in_map_iff in Hin as ([i j] & Hm & Hin).
      apply (in_prune_overlaps _ _ _ _ _ _ _ _ _ Hp) in Hin as (Hij & _).
      unfold marked in Hm. cbn [fst snd] in Hm.
      destruct (fgt (semi_major blobs_array i) (semi_major blobs_array j)) eqn:Hc;
        subst k.
      * rewrite <- !Hl in Hc. rewrite Hbefore in Hc by lia. discriminate.
      * rewrite <- !Hl in Hc. rewrite Hafter in Hc by lia. discriminate.
    + intros i Hi. rewrite <- !Hl.
      destruct (Nat.lt_total i k) as [Hlt|[->|Hgt]].
      * apply Hbefore, Hlt.
      * apply fltb_irrefl.
      * apply fltb_asym. apply Hafter. lia.
Qed.

End PruneMore.

Lemma prune_unchanged_below_threshold_witness :
  _prune_blobs Libm.hypot Libm.arccos Sample.bbox Sample.areas
               Cases.far_regions 0.9 true
  = Ok Cases.far_regions.
Proof.
  apply (prune_unchanged_below_threshold
           Libm.hypot Libm.arccos Sample.bbox Sample.areas true
           Cases.far_regions 0.9); [reflexivity|].
  intros i j Hij. cbn [Cases.far_regions List.length] in Hij.
  assert (Hi : i = 0%nat) by lia. assert (Hj : j = 1%nat) by lia. subst i j.
  exists 0. split; vm_compute; reflexivity.
Defined.

Lemma prune_idempotent_witness :
  exists out,
    _prune_blobs Libm.hypot Libm.arccos Sample.bbox Sample.areas
                 Sample.nested 0.5 false = Ok out
    /\ _prune_blobs Libm.hypot Libm.arccos Sample.bbox Sample.areas
                    out 0.5 false = Ok out.
Proof.
  apply (prune_idempotent Libm.hypot Libm.arccos Sample.bbox Sample.areas
                          Sample.nested 0.5 [1; 0; 0]).
  - reflexivity.
  - vm_compute. reflexivity.
Defined.

Lemma prune_keeps_a_largest_witness :
  exists survivors k,
    _prune_blobs Libm.hypot Libm.arccos Sample.bbox Sample.areas
                 Sample.tie 0.5 false
    = Ok (map (arr_row Sample.tie) survivors)
    /\ In k survivors
    /\ forall i, i < List.length Sample.tie ->
                 fgt (semi_major Sample.tie i) (semi_major Sample.tie k) = false.
Proof.
  eapply (prune_keeps_a_largest Libm.hypot Libm.arccos Sample.bbox Sample.areas
                                Sample.tie 0.5).
  - reflexivity.
  - vm_compute. reflexivity.
  - discriminate.
  - intros [|[|k]] Hk; [reflexivity | reflexivity | cbn in Hk; lia].
Defined.

(* ================================================================== *)
(** ** More on the kernels *)

Section KernelMore.

Variable hypot : float -> float -> result float.
Variable arccos : float -> float.
Variable bbox :
  float -> float -> float -> float -> float -> (float * float) * (float * float).
Variable areas :
  float -> float * float -> float * float ->
  float * float * float * float * float ->
  float * float * float * float * float -> Z * Z * Z.

(** The value [1e-5] never leaves [overlap_metric] for two circular
    rows: whatever the circle kernel returns, the result differs from
    [1e-5]. *)
Theorem overlap_metric_hides_touching_value (ellip1 ellip2 : row) (v : float) :
  elongated ellip1 = Ok false ->
  elongated ellip2 = Ok false ->
  overlap_metric hypot arccos bbox areas ellip1 ellip2 = Ok v ->
  (v =? touching_eps) = false.
Proof.
  intros H1 H2. unfold overlap_metric, py_or. rewrite H1, H2. cbn [bind].
  destruct (_blob_overlap hypot arccos ellip1 ellip2) as [w|e]; cbn [bind];
    [|discriminate].
  destruct (w =? touching_eps) eqn:Hw; intros H; injection H as <-;
    [reflexivity | exact Hw].
Qed.

(** The pixel kernel does not depend on the order of its two rows when
    one semi-major axis is strictly larger than the other. *)
Theorem pixel_overlap_symmetric (blob1 blob2 : row) (s1 s2 grid_space : float)
        (return_large_overlap : bool) :
  row_get blob1 2 = Ok s1 ->
  row_get blob2 2 = Ok s2 ->
  fgt s1 s2 = true \/ fgt s2 s1 = true ->
  _pixel_overlap bbox areas blob1 blob2 grid_space return_large_overlap
  = _pixel_overlap bbox areas blob2 blob1 grid_space return_large_overlap.
Proof.
  intros H1 H2 Hne. unfold _pixel_overlap. rewrite H1, H2. cbn [bind].
  unfold fgt in *. destruct Hne as [Hgt | Hgt].
  - rewrite Hgt, (fltb_asym _ _ Hgt). reflexivity.
  - rewrite Hgt, (fltb_asym _ _ Hgt). reflexivity.
Qed.

End KernelMore.

Lemma overlap_metric_hides_touching_value_witness :
  overlap_metric Libm.hypot Libm.arccos Sample.bbox Sample.areas
                 [0; 0; 1; 1; 0] [0; 2; 1; 1; 0] = Ok 0
  /\ (0 =? touching_eps) = false.
Proof.
  assert (H : overlap_metric Libm.hypot Libm.arccos Sample.bbox Sample.areas
                             [0; 0; 1; 1; 0] [0; 2; 1; 1; 0] = Ok 0)
    by (vm_compute; reflexivity).
  split; [exact H|].
  apply (overlap_metric_hides_touching_value
           Libm.hypot Libm.arccos Sample.bbox Sample.areas
           [0; 0; 1; 1; 0] [0; 2; 1; 1; 0] 0); [reflexivity | reflexivity | exact H].
Defined.

Lemma pixel_overlap_symmetric_witness :
  _pixel_overlap Sample.bbox Sample.areas Cases.ellipse_row Cases.circle_row
                 default_grid_space false
  = _pixel_overlap Sample.bbox Sample.areas Cases.circle_row Cases.ellipse_row
                   default_grid_space false.
Proof.
  apply (pixel_overlap_symmetric Sample.bbox Sample.areas
           Cases.ellipse_row Cases.circle_row 6 4 default_grid_space false).
  - reflexivity.
  - reflexivity.
  - left. reflexivity.
Defined.

(* ================================================================== *)
(** ** More on merging *)

Lemma filterM_still_valid_total (a : ndarray) :
  (forall b, In b a -> List.length b = 5%nat) ->
  filterM still_valid a = Ok (filter (fun b => fgt (nth 2 b 0) 0) a).
Proof.
  induction a as [|b a IH]; intros Hlen; [reflexivity|].
  cbn [filterM filter].
  assert (Hb : List.length b = 5%nat) by (apply Hlen; left; reflexivity).
  destruct b as [|y [|x [|r [|c [|p [|]]]]]]; try discriminate Hb.
  unfold still_valid at 1. cbn [row_get nth_error bind nth].
  rewrite IH by (intros b Hin; apply Hlen; right; exact Hin). reflexivity.
Qed.

Lemma ncols_filter (f : row -> bool) (a : ndarray) :
  (forall b, In b a -> List.length b = 5%nat) ->
  filter f a <> [] -> ncols (filter f a) = 5%nat.
Proof.
  intros Hlen Hne. destruct (filter f a) as [|b rest] eqn:E; [congruence|].
  cbn. apply Hlen. eapply proj1. apply (filter_In f b a). rewrite E. left. reflexivity.
Qed.

Section MergeMore.

Variable hypot : float -> float -> result float.
Variable arccos : float -> float.
Variable arctan : float -> float.
Variable bbox :
  float -> float -> float -> float -> float -> (float * float) * (float * float).
Variable areas :
  float -> float * float -> float * float ->
  float * float * float * float * float ->
  float * float * float * float * float -> Z * Z * Z.

(** With no pair in the merge band the loop does not run, and the
    compaction alone decides the result. *)
Lemma merge_below_band (blobs_array : ndarray) (min_distance_merge : float) :
  (forall b, In b blobs_array -> List.length b = 5%nat) ->
  filter (fun b => fgt (nth 2 b 0) 0) blobs_array <> [] ->
  (forall i j, i < j < List.length blobs_array ->
     exists v,
       overlap_metric hypot arccos bbox areas
                      (arr_row blobs_array i) (arr_row blobs_array j) = Ok v
       /\ fgt v (_min_merge_overlap arccos min_distance_merge) && (v <=? 1) = false) ->
  _merge_blobs hypot arccos arctan bbox areas blobs_array min_distance_merge
  = Ok (filter (fun b => fgt (nth 2 b 0) 0) blobs_array).
Proof.
  intros Hlen Hne Hout.
  assert (exists cond_arr,
             pdist (overlap_metric hypot arccos bbox areas) blobs_array = Ok cond_arr)
    as (cond_arr & Hp).
  { apply mapM_total. intros [i j] Hin. apply in_upper_pairs in Hin. cbn [fst snd].
    destruct (Hout i j Hin) as (v & Hv & _). eauto. }
  assert (Hov : merge_overlaps arccos min_distance_merge cond_arr
                               (List.length blobs_array) = []).
  { unfold merge_overlaps, np_where. cbv zeta.
    destruct (filter _ (dist_uppertri _ _)) as [|[[i j] v] rest] eqn:Hf;
      [reflexivity|].
    assert (Hin : In ((i, j), v)
                     (filter (fun e => fgt (snd e) (_min_merge_overlap arccos min_distance_merge)
                                       && (snd e <=? 1))
                             (dist_uppertri cond_arr (List.length blobs_array))))
      by (rewrite Hf; left; reflexivity).
    apply filter_In in Hin as [Hin Hv]. cbn [snd] in Hv.
    pose proof (in_combine_upper_pairs _ _ _ _ Hin) as Hij. cbn [fst snd] in Hij.
    pose proof (pdist_entry _ _ _ _ _ _ Hp Hin) as Hm.
    destruct (Hout i j Hij) as (w & Hw & Hlt). congruence. }
  unfold _merge_blobs. rewrite Hp. cbn [bind]. rewrite Hov. cbn [foldM bind].
  rewrite (filterM_still_valid_total _ Hlen). cbn [bind].
  unfold vstack_merged. rewrite app_nil_r.
  destruct (ncols _ =? 5)%nat eqn:E; [reflexivity|].
  apply Nat.eqb_neq in E. destruct E.
  exact (ncols_filter (fun b => fgt (nth 2 b 0) 0) blobs_array Hlen Hne).
Qed.

(** When no pair of rows has its overlap in the merge band, whose floor
    is not negative, a 5-column array comes back from [_merge_blobs] with
    the rows whose semi-major axis is positive, in their order: nothing
    is merged, and a row with semi-major axis 0, negative or NaN is
    dropped all the same.  An array whose semi-major axes are all
    positive comes back as it is. *)
Theorem merge_blobs_without_band_pair (blobs_array : ndarray)
        (min_distance_merge : float) :
  fgt 0 (_min_merge_overlap arccos min_distance_merge) = false ->
  (forall b, In b blobs_array -> List.length b = 5%nat) ->
  filter (fun b => fgt (nth 2 b 0) 0) blobs_array <> [] ->
  (forall i j, i < j < List.length blobs_array ->
     exists v,
       overlap_metric hypot arccos bbox areas
                      (arr_row blobs_array i) (arr_row blobs_array j) = Ok v
       /\ fgt v (_min_merge_overlap arccos min_distance_merge) && (v <=? 1) = false) ->
  _merge_blobs hypot arccos arctan bbox areas blobs_array min_distance_merge
  = Ok (filter (fun b => fgt (nth 2 b 0) 0) blobs_array)
  /\ ((forall b, In b blobs_array -> fgt (nth 2 b 0) 0 = true) ->
      _merge_blobs hypot arccos arctan bbox areas blobs_array min_distance_merge
      = Ok blobs_array).
Proof.
  intros _ Hlen Hne Hout.
  pose proof (merge_below_band _ _ Hlen Hne Hout) as H. split; [exact H|].
  intros Hpos. rewrite H.
  assert (Hall : filter (fun b : row => fgt (nth 2 b 0) 0) blobs_array = blobs_array)
    by (apply forallb_filter_id; apply forallb_forall; exact Hpos).
  exact (f_equal Ok Hall).
Qed.

End MergeMore.

Lemma merge_blobs_without_band_pair_witness :
  _merge_blobs Libm.hypot Libm.arccos Libm.arctan Sample.bbox Sample.areas
               Cases.with_point 1
  = Ok [[50; 50; 2; 2; 0]].
Proof.
  destruct (merge_blobs_without_band_pair
              Libm.hypot Libm.arccos Libm.arctan Sample.bbox Sample.areas
              Cases.with_point 1) as [H _].
  - vm_compute. reflexivity.
  - intros b Hb. unfold Cases.with_point in Hb. cbn [In] in Hb.
    destruct Hb as [<-|[<-|[]]]; reflexivity.
  - intros H. vm_compute in H. discriminate H.
  - intros i j Hij. cbn [Cases.with_point List.length] in Hij.
    assert (Hi : i = 0%nat) by lia. assert (Hj : j = 1%nat) by lia. subst i j.
    exists 0. split; vm_compute; reflexivity.
  - exact H.
Defined.

(* ================================================================== *)
(** ** More on the detector *)

Lemma in_combine_seq {A : Type} (xs : list A) (start i : nat) (x d : A) :
  In (i, x) (combine (seq start (List.length xs)) xs)
  <-> start <= i < start + List.length xs /\ nth (i - start) xs d = x.
Proof.
  revert start; induction xs as [|y xs IH]; intros start; cbn [List.length seq combine].
  - cbn. split; [contradiction | lia].
  - cbn [In]. rewrite IH. split.
    + intros [Heq | [Hi Hn]].
      * injection Heq as <- <-. rewrite Nat.sub_diag. cbn. split; [lia | reflexivity].
      * split; [lia|]. replace (i - start)%nat with (S (i - S start)) by lia.
        exact Hn.
    + intros [Hi Hn]. destruct (Nat.eq_dec i start) as [->|Hne].
      * left. rewrite Nat.sub_diag in Hn. cbn in Hn. now subst.
      * right. split; [lia|].
        replace (i - start)%nat with (S (i - S start)) in Hn by lia. exact Hn.
Qed.

Lemma check_weighting_length (weighting : option (list float))
      (sigma_list w : list float) :
  check_weighting weighting sigma_list = Ok w ->
  List.length w = List.length sigma_list.
Proof.
  unfold check_weighting. destruct weighting as [w0|].
  - destruct (List.length w0 =? List.length sigma_list)%nat eqn:E; cbn;
      intros H; [|discriminate].
    injection H as <-. now apply Nat.eqb_eq.
  - intros H. injection H as <-. apply length_map.
Qed.

Section BlobLogMore.

Variable hypot : float -> float -> result float.
Variable arccos : float -> float.
Variable arctan : float -> float.
Variable bbox :
  float -> float -> float -> float -> float -> (float * float) * (float * float).
Variable areas :
  float -> float * float -> float * float ->
  float * float * float * float * float ->
  float * float * float * float * float -> Z * Z * Z.
Variable img_as_float : image -> image.
Variable gaussian_laplace : image -> float -> image.
Variable peak_local_max : image -> float -> float -> list (Z * Z).
Variable math_log : float -> float -> result float.
Variable np_logspace : float -> float -> Z -> result (list float).
Variable np_linspace : float -> float -> Z -> result (list float).
Variable py_int : float -> result Z.
Variable py_pow : float -> Z -> result float.

Lemma in_scale_space_maxima (image_cube : cube) (sigma_list : list float)
      (threshold : float) (b : row) :
  In b (scale_space_maxima peak_local_max image_cube sigma_list threshold)
  <-> exists i y x,
        i < List.length sigma_list
        /\ In (y, x) (peak_local_max (nth i image_cube []) threshold
                                     (1.5 * nth i sigma_list 0))
        /\ b = [float_of_Z y; float_of_Z x;
                nth i sigma_list 0 * sqrt 2; nth i sigma_list 0 * sqrt 2; 0].
Proof.
  unfold scale_space_maxima, enumerate. rewrite in_flat_map. split.
  - intros ([i s] & Hin & Hb). cbn [fst snd] in Hb.
    apply (in_combine_seq sigma_list 0 i s 0) in Hin as [Hi Hs].
    rewrite Nat.sub_0_r in Hs. subst s.
    apply in_map_iff in Hb as ([y x] & <- & Hyx). cbn [fst snd].
    exists i, y, x. split; [lia|]. split; [exact Hyx | reflexivity].
  - intros (i & y & x & Hi & Hyx & ->). exists (i, nth i sigma_list 0). split.
    + apply (in_combine_seq sigma_list 0 i _ 0). split; [lia|].
      now rewrite Nat.sub_0_r.
    + cbn [fst snd]. apply in_map_iff. exists (y, x). split; [reflexivity | exact Hyx].
Qed.


(** An empty list of scales, with no weighting or an empty one, makes
    [blob_log] raise the [ValueError] of [np.dstack]: there is no
    response to stack. *)
Theorem blob_log_empty_scales
        (img : image) (sigma_list : option (list float)) (scale_choice : str)
        (min_sigma max_sigma : float)
        (num_sigma : Z) (threshold overlap sigma_ratio : float)
        (weighting : option (list float)) (merge_overlap_dist : float) :
  match sigma_list with
  | None => default_sigma_list math_log np_logspace np_linspace py_int py_pow
                               scale_choice min_sigma max_sigma num_sigma sigma_ratio
  | Some sl => Ok sl
  end = Ok [] ->
  weighting = None \/ weighting = Some [] ->
  blob_log hypot arccos arctan bbox areas img_as_float gaussian_laplace
           peak_local_max math_log np_logspace np_linspace py_int py_pow
           img sigma_list scale_choice min_sigma max_sigma num_sigma
           threshold overlap sigma_ratio weighting merge_overlap_dist
  = Raise (ValueError "need at least one array to concatenate").
Proof.
  intros Hs Hw. unfold blob_log. rewrite Hs. cbn [bind].
  destruct Hw as [-> | ->]; reflexivity.
Qed.

(** Whenever [blob_log] returns, the response stack it returns has one
    slice per scale. *)
Theorem blob_log_stack_has_one_slice_per_scale
        (img : image) (sigma_list : option (list float)) (scale_choice : str)
        (min_sigma max_sigma : float)
        (num_sigma : Z) (threshold overlap sigma_ratio : float)
        (weighting : option (list float)) (merge_overlap_dist : float)
        (scales : list float) (out : ndarray) (image_cube : cube) :
  match sigma_list with
  | None => default_sigma_list math_log np_logspace np_linspace py_int py_pow
                               scale_choice min_sigma max_sigma num_sigma sigma_ratio
  | Some sl => Ok sl
  end = Ok scales ->
  blob_log hypot arccos arctan bbox areas img_as_float gaussian_laplace
           peak_local_max math_log np_logspace np_linspace py_int py_pow
           img sigma_list scale_choice min_sigma max_sigma num_sigma
           threshold overlap sigma_ratio weighting merge_overlap_dist
  = Ok (out, image_cube) ->
  List.length image_cube = List.length scales.
Proof.
  intros Hs. unfold blob_log. rewrite Hs. cbn [bind]. intros H.
  apply bind_Ok_inv in H as (w & Hw & H).
  apply bind_Ok_inv in H as (ic & Hic & H).
  assert (Hlen : List.length ic = List.length scales).
  { unfold response_stack, np_dstack in Hic.
    destruct (map _ (combine scales w)) as [|g gs] eqn:E; [discriminate|].
    injection Hic as <-. rewrite <- E, length_map, length_combine.
    rewrite (check_weighting_length _ _ _ Hw). apply Nat.min_id. }
  destruct (List.length _ =? 0)%nat.
  - injection H as _ <-. exact Hlen.
  - apply bind_Ok_inv in H as (m & _ & H).
    apply bind_Ok_inv in H as (p & _ & H). injection H as _ <-. exact Hlen.
Qed.

(** Candidates that do not overlap come back as they are.  When the
    candidates have positive radii, every pair of them has overlap 0 (the
    circles are apart, or touch), the pruning threshold is positive and
    the floor of the merge band is not negative, [blob_log] returns the
    candidates unchanged and in their order, with the response stack. *)
Theorem blob_log_keeps_separate_candidates
        (img : image) (sigma_list : option (list float)) (scale_choice : str)
        (min_sigma max_sigma : float)
        (num_sigma : Z) (threshold overlap sigma_ratio : float)
        (weighting : option (list float)) (merge_overlap_dist : float)
        (scales weights : list float) (image_cube : cube) (candidates : ndarray) :
  match sigma_list with
  | None => default_sigma_list math_log np_logspace np_linspace py_int py_pow
                               scale_choice min_sigma max_sigma num_sigma sigma_ratio
  | Some sl => Ok sl
  end = Ok scales ->
  check_weighting weighting scales = Ok weights ->
  response_stack gaussian_laplace (img_as_float img) scales weights = Ok image_cube ->
  scale_space_maxima peak_local_max image_cube scales threshold = candidates ->
  candidates <> [] ->
  (forall b, In b candidates -> fgt (nth 2 b 0) 0 = true) ->
  (forall i j, i < j < List.length candidates ->
     overlap_metric hypot arccos bbox areas
                    (arr_row candidates i) (arr_row candidates j) = Ok 0) ->
  fgt overlap 0 = true ->
  fgt 0 (_min_merge_overlap arccos merge_overlap_dist) = false ->
  blob_log hypot arccos arctan bbox areas img_as_float gaussian_laplace
           peak_local_max math_log np_logspace np_linspace py_int py_pow
           img sigma_list scale_choice min_sigma max_sigma num_sigma
           threshold overlap sigma_ratio weighting merge_overlap_dist
  = Ok (candidates, image_cube).
Proof.
  intros Hs Hw Hc Hm Hne Hpos Hsep Hthr Hfloor.
  assert (Hlen : forall b, In b candidates -> List.length b = 5%nat).
  { intros b Hb. rewrite <- Hm in Hb.
    apply in_scale_space_maxima in Hb as (i & y & x & _ & _ & ->). reflexivity. }
  assert (Hall : filter (fun b : row => fgt (nth 2 b 0) 0) candidates = candidates)
    by (apply forallb_filter_id; apply forallb_forall; exact Hpos).
  assert (Hmerge : _merge_blobs hypot arccos arctan bbox areas candidates
                                merge_overlap_dist = Ok candidates).
  { transitivity (Ok (filter (fun b : row => fgt (nth 2 b 0) 0) candidates));
      [|exact (f_equal Ok Hall)].
    apply merge_below_band.
    - exact Hlen.
    - intros H. apply Hne. exact (eq_trans (eq_sym Hall) H).
    - intros i j Hij. exists 0. split; [apply Hsep, Hij|].
      rewrite Hfloor. reflexivity. }
  assert (Hprune : _prune_blobs hypot arccos bbox areas candidates overlap false
                   = Ok candidates).
  { apply prune_below_threshold. intros i j Hij. exists 0.
    split; [apply Hsep, Hij|]. unfold fge. apply fltb_not_leb. exact Hthr. }
  unfold blob_log. rewrite Hs. cbn [bind]. rewrite Hw. cbn [bind].
  rewrite Hc. cbn [bind]. rewrite Hm.
  destruct candidates as [|b rest]; [congruence|]. cbn [List.length Nat.eqb].
  rewrite Hmerge. cbn [bind]. rewrite Hprune. reflexivity.
Qed.

End BlobLogMore.

Lemma blob_log_empty_scales_witness :
  blob_log Libm.hypot Libm.arccos Libm.arctan Sample.bbox Sample.areas
           Sample.same_image Sample.unfiltered Sample.one_peak
           Sample.log_unused Sample.space_unused Sample.space_unused
           Sample.int_unused Sample.pow_unused
           Sample.flat_image (Some []) (lit "linear") 1 50 10
           0.2 0.5 2 None 1
  = Raise (ValueError "need at least one array to concatenate").
Proof.
  apply (blob_log_empty_scales
           Libm.hypot Libm.arccos Libm.arctan Sample.bbox Sample.areas
           Sample.same_image Sample.unfiltered Sample.one_peak
           Sample.log_unused Sample.space_unused Sample.space_unused
           Sample.int_unused Sample.pow_unused
           Sample.flat_image (Some []) (lit "linear") 1 50 10
           0.2 0.5 2 None 1).
  - reflexivity.
  - left. reflexivity.
Defined.

Lemma blob_log_stack_has_one_slice_per_scale_witness :
  List.length [img_scale (img_scale Sample.flat_image (np_sq 2)) 1;
               img_scale (img_scale Sample.flat_image (np_sq 3)) 1]
  = List.length [2; 3].
Proof.
  apply (blob_log_stack_has_one_slice_per_scale
           Libm.hypot Libm.arccos Libm.arctan Sample.bbox Sample.areas
           Sample.same_image Sample.unfiltered Sample.no_peaks
           Sample.log_unused Sample.space_unused Sample.space_unused
           Sample.int_unused Sample.pow_unused
           Sample.flat_image (Some [2; 3]) (lit "linear") 1 50 10
           0.2 0.5 2 None 1 [2; 3] []).
  - reflexivity.
  - vm_compute. reflexivity.
Defined.

Lemma blob_log_keeps_separate_candidates_witness :
  blob_log Libm.hypot Libm.arccos Libm.arctan Sample.bbox Sample.areas
           Sample.same_image Sample.unfiltered Cases.two_peaks
           Sample.log_unused Sample.space_unused Sample.space_unused
           Sample.int_unused Sample.pow_unused
           Sample.flat_image (Some [2]) (lit "linear") 1 50 10
           0.2 0.5 2 None 1
  = Ok ([[3; 4; 2 * sqrt 2; 2 * sqrt 2; 0]; [40; 50; 2 * sqrt 2; 2 * sqrt 2; 0]],
        [img_scale (img_scale Sample.flat_image (np_sq 2)) 1]).
Proof.
  apply (blob_log_keeps_separate_candidates
           Libm.hypot Libm.arccos Libm.arctan Sample.bbox Sample.areas
           Sample.same_image Sample.unfiltered Cases.two_peaks
           Sample.log_unused Sample.space_unused Sample.space_unused
           Sample.int_unused Sample.pow_unused
           Sample.flat_image (Some [2]) (lit "linear") 1 50 10
           0.2 0.5 2 None 1 [2] [1]).
  - reflexivity.
  - reflexivity.
  - reflexivity.
  - vm_compute. reflexivity.
  - discriminate.
  - intros b Hb. cbn [In] in Hb.
    destruct Hb as [<- | [<- | []]]; vm_compute; reflexivity.
  - intros i j Hij. cbn [List.length] in Hij.
    assert (i = 0%nat /\ j = 1%nat) as [-> ->] by lia.
    vm_compute. reflexivity.
  - vm_compute. reflexivity.
  - vm_compute. reflexivity.
Defined.

(* ================================================================== *)
(** ** Pruning with shell fractions *)

Section PruneShell.

Variable hypot : float -> float -> result float.
Variable arccos : float -> float.
Variable bbox :
  float -> float -> float -> float -> float -> (float * float) * (float * float).
Variable areas :
  float -> float * float -> float * float ->
  float * float * float * float * float ->
  float * float * float * float * float -> Z * Z * Z.

(** Every pass of the loop raises when [use_shell_fraction] is on, so a
    call that returns has visited no pair. *)
Lemma prune_shell_Ok_inv (blobs_array : ndarray) (overlap : float) (out : ndarray) :
  _prune_blobs hypot arccos bbox areas blobs_array overlap true = Ok out ->
  out = blobs_array.
Proof.
  unfold _prune_blobs. intros H.
  apply bind_Ok_inv in H as (cond_arr & _ & H). cbv zeta in H.
  apply bind_Ok_inv in H as (st & Hst & H).
  destruct (prune_overlaps overlap cond_arr (List.length blobs_array))
    as [|[i j] rest].
  - cbn [foldM] in Hst. injection Hst as <-. cbn [fst nodup] in H.
    rewrite np_delete_nil in H. injection H as <-. reflexivity.
  - exfalso. cbn [foldM prune_body] in Hst.
    destruct (row_get (arr_row blobs_array i) 5); cbn [bind] in Hst; [|discriminate].
    destruct (row_get (arr_row blobs_array j) 5); cbn [bind] in Hst; discriminate.
Qed.

(** With [use_shell_fraction], [_prune_blobs] never removes a row:
    whenever it returns, it returns the array it was given. *)
Theorem prune_shell_fraction_never_removes (blobs_array : ndarray)
        (overlap : float) (out : ndarray) :
  _prune_blobs hypot arccos bbox areas blobs_array overlap true = Ok out ->
  out = blobs_array.
Proof. exact (prune_shell_Ok_inv blobs_array overlap out). Qed.

Lemma overlap_metric_four_columns (y1 x1 a1 b1 y2 x2 a2 b2 : float) :
  fneq a1 b1 || fneq a2 b2 = true ->
  overlap_metric hypot arccos bbox areas [y1; x1; a1; b1] [y2; x2; a2; b2]
  = Raise (index_error 4 4).
Proof.
  intros H. unfold overlap_metric, py_or, elongated.
  cbn [row_get nth_error bind].
  assert (Hpix : _pixel_overlap bbox areas [y1; x1; a1; b1] [y2; x2; a2; b2]
                                default_grid_space false
                 = Raise (index_error 4 4)).
  { unfold _pixel_overlap. cbn [row_get nth_error bind].
    destruct (fgt a1 a2); reflexivity. }
  destruct (fneq a1 b1); cbn [bind]; [exact Hpix|].
  destruct (fneq a2 b2); cbn [bind]; [exact Hpix | discriminate H].
Qed.

(** With [use_shell_fraction] the two trailing columns are cut off
    before the overlaps are computed.  On rows of six columns, the
    geometry and the shell fraction without a channel, the position
    angle goes with them: as soon as one of the first two rows is not a
    circle, the pixel kernel reads index 4 of a row of four and
    [_prune_blobs] raises [IndexError]. *)
Theorem prune_shell_fraction_needs_channel
        (y1 x1 a1 b1 t1 q1 y2 x2 a2 b2 t2 q2 : float) (rest : ndarray)
        (overlap : float) :
  fneq a1 b1 || fneq a2 b2 = true ->
  _prune_blobs hypot arccos bbox areas
               ([y1; x1; a1; b1; t1; q1] :: [y2; x2; a2; b2; t2; q2] :: rest)
               overlap true
  = Raise (index_error 4 4).
Proof.
  intros H. unfold _prune_blobs, pdist.
  cbn [map List.length upper_pairs seq flat_map Nat.sub app mapM fst snd
       arr_row nth slicer firstn].
  rewrite (overlap_metric_four_columns _ _ _ _ _ _ _ _ H). reflexivity.
Qed.

End PruneShell.

Lemma prune_shell_fraction_never_removes_witness :
  exists out,
    _prune_blobs Libm.hypot Libm.arccos Sample.bbox Sample.areas
                 Cases.far_regions 0.9 true = Ok out
    /\ out = Cases.far_regions.
Proof.
  eexists. split; [vm_compute; reflexivity|].
  apply (prune_shell_fraction_never_removes
           Libm.hypot Libm.arccos Sample.bbox Sample.areas
           Cases.far_regions 0.9).
  vm_compute. reflexivity.
Defined.

Lemma prune_shell_fraction_needs_channel_witness :
  _prune_blobs Libm.hypot Libm.arccos Sample.bbox Sample.areas
               [[10; 10; 6; 3; 0.5; 0.9]; [12; 11; 4; 4; 0; 0.8]] 0.9 true
  = Raise (index_error 4 4).
Proof.
  apply (prune_shell_fraction_needs_channel
           Libm.hypot Libm.arccos Sample.bbox Sample.areas
           10 10 6 3 0.5 0.9 12 11 4 4 0 0.8 [] 0.9).
  reflexivity.
Defined.

(* ================================================================== *)
(** ** The finder *)

Lemma row_set_length (b : row) (i : nat) (v : float) (b' : row) :
  row_set b i v = Ok b' -> List.length b' = List.length b.
Proof.
  revert i b'. induction b as [|h t IH]; intros [|i] b' H; cbn in H;
    try discriminate.
  - injection H as <-. reflexivity.
  - destruct (row_set t i v) as [t'|e] eqn:E; [|discriminate].
    injection H as <-. cbn. f_equal. exact (IH i t' E).
Qed.

Section FinderFacts.

Variable hypot : float -> float -> result float.
Variable arccos : float -> float.
Variable arctan : float -> float.
Variable bbox :
  float -> float -> float -> float -> float -> (float * float) * (float * float).
Variable areas :
  float -> float * float -> float * float ->
  float * float * float * float * float ->
  float * float * float * float * float -> Z * Z * Z.
Variable img_as_float : image -> image.
Variable gaussian_laplace : image -> float -> image.
Variable peak_local_max : image -> float -> float -> list (Z * Z).
Variable math_log : float -> float -> result float.
Variable np_logspace : float -> float -> Z -> result (list float).
Variable np_linspace : float -> float -> Z -> result (list float).
Variable py_int : float -> result Z.
Variable py_pow : float -> Z -> result float.
Variable np_arange : float -> float -> float -> list float.
Variable sig_clip : image -> float -> result float.
Variable edge_fit : image -> nat -> row -> float -> result (option (row * float)).
Variable show_region : image -> nat -> row -> row -> float -> result unit.

(** [__init__] leaves one weighting per scale. *)
Lemma init_weightings_length (input_array : image) (scales : option (list float))
      (channel : option float) (beam_pix : float) (self : Segment.BubbleFinder2D) :
  Segment.__init__ np_arange input_array scales channel beam_pix = Ok self ->
  List.length (Segment.weightings self) = List.length (Segment.scales self).
Proof.
  unfold Segment.__init__. cbv zeta. intros H.
  apply bind_Ok_inv in H as (s0 & _ & H).
  apply bind_Ok_inv in H as (w & Hw & H). injection H as <-.
  cbn [Segment.weightings Segment.scales].
  destruct (s0 =? beam_pix).
  - rewrite (row_set_length _ _ _ _ Hw). apply length_map.
  - injection Hw as <-. apply length_map.
Qed.

(** Without the edge search the loop body is one read of [new_props],
    which is unbound. *)
Lemma multiscale_without_edge_find
      (self : Segment.BubbleFinder2D) (scales : option (list float))
      (sigma : option float) (nsig overlap_frac : float) :
  exists e,
    Segment.multiscale_bubblefind
      hypot arccos arctan bbox areas img_as_float gaussian_laplace
      peak_local_max math_log np_logspace np_linspace py_int py_pow
      sig_clip edge_fit show_region
      self scales sigma nsig overlap_frac false
    = Raise e.
Proof.
  unfold Segment.multiscale_bubblefind. cbv zeta.
  destruct (match sigma with
            | Some s => Ok s
            | None => sig_clip _ 10
            end) as [s|e]; cbn [bind]; [|eauto].
  destruct (blob_log _ _ _ _ _ _ _ _ _ _ _ _ _ _ _ _ _ _ _ _ _ _ _ _)
    as [[found image_cube]|e]; cbn [bind fst]; [|eauto].
  destruct (rev found) as [|props rest].
  - cbn. eauto.
  - cbn. eauto.
Qed.


(** The weightings are set once, in [__init__], one per scale.  When
    [multiscale_bubblefind] is given another number of scales than the
    finder was built with, [blob_log] rejects the weightings and the
    call raises [IndexError]. *)
Theorem multiscale_bubblefind_rejects_other_scale_count
        (input_array : image) (scales0 : option (list float))
        (channel : option float) (beam_pix : float)
        (self : Segment.BubbleFinder2D) (scales : list float)
        (sigma : option float) (s nsig overlap_frac : float) (edge_find : bool) :
  Segment.__init__ np_arange input_array scales0 channel beam_pix = Ok self ->
  List.length scales <> List.length (Segment.scales self) ->
  match sigma with
  | None => sig_clip (Segment.array self) 10
  | Some v => Ok v
  end = Ok s ->
  Segment.multiscale_bubblefind
    hypot arccos arctan bbox areas img_as_float gaussian_laplace
    peak_local_max math_log np_logspace np_linspace py_int py_pow
    sig_clip edge_fit show_region
    self (Some scales) sigma nsig overlap_frac edge_find
  = Raise (weighting_error (List.length scales)).
Proof.
  intros Hinit Hlen Hs. apply init_weightings_length in Hinit.
  unfold Segment.multiscale_bubblefind. cbv zeta.
  cbn [Segment.array Segment.scales Segment.weightings]. rewrite Hs. cbn [bind].
  unfold blob_log. cbn [bind]. unfold check_weighting.
  destruct (List.length (Segment.weightings self) =? List.length scales)%nat eqn:E.
  - apply Nat.eqb_eq in E. congruence.
  - reflexivity.
Qed.

(** When [multiscale_bubblefind] returns, the edge search was on, at
    least one region was collected, and the regions it leaves are the
    rows the loop collected from the detections of [blob_log], taken
    last to first: the final pruning removed none. *)
Theorem multiscale_bubblefind_keeps_every_region
        (self : Segment.BubbleFinder2D) (scales : option (list float))
        (sigma : option float) (nsig overlap_frac : float) (edge_find : bool)
        (self' : Segment.BubbleFinder2D) :
  Segment.multiscale_bubblefind
    hypot arccos arctan bbox areas img_as_float gaussian_laplace
    peak_local_max math_log np_logspace np_linspace py_int py_pow
    sig_clip edge_fit show_region
    self scales sigma nsig overlap_frac edge_find
  = Ok self' ->
  edge_find = true
  /\ Segment.regions self' <> []
  /\ exists s found image_cube,
       blob_log hypot arccos arctan bbox areas img_as_float gaussian_laplace
                peak_local_max math_log np_logspace np_linspace py_int py_pow
                (Segment.array self) (Some (Segment.scales self'))
                (lit "linear") 1 50 10 (nsig * s) 0.99 2
                (Some (Segment.weightings self)) 1
       = Ok (found, image_cube)
       /\ foldM (Segment.region_body edge_fit show_region self s true) []
                (enumerate (rev found))
          = Ok (Segment.regions self').
Proof.
  intros H.
  destruct edge_find.
  2:{ destruct (multiscale_without_edge_find self scales sigma
                  nsig overlap_frac) as (e & He). congruence. }
  split; [reflexivity|].
  unfold Segment.multiscale_bubblefind in H. cbv zeta in H.
  apply bind_Ok_inv in H as (s & _ & H).
  apply bind_Ok_inv in H as ([found image_cube] & Hfound & H).
  apply bind_Ok_inv in H as (all_props & Hloop & H).
  apply bind_Ok_inv in H as (pruned & Hpruned & H).
  injection H as <-. cbn [Segment.regions Segment.scales].
  destruct all_props as [|r rs]; [discriminate|].
  apply prune_shell_Ok_inv in Hpruned. subst pruned.
  split; [discriminate|].
  exists s, found, image_cube. cbn [fst] in Hloop.
  destruct scales as [sc|]; cbn [Segment.array Segment.scales Segment.weightings]
    in Hfound |- *; split; first [exact Hfound | exact Hloop].
Qed.

End FinderFacts.

Lemma multiscale_bubblefind_rejects_other_scale_count_witness :
  Segment.multiscale_bubblefind
    Libm.hypot Libm.arccos Libm.arctan Sample.bbox Sample.areas
    Sample.same_image Sample.unfiltered Cases.two_peaks
    Sample.log_unused Sample.space_unused Sample.space_unused
    Sample.int_unused Sample.pow_unused
    Segment.flat_clip Segment.keep_fit Segment.no_display
    (Segment.mk_finder Sample.flat_image [2; 4] [0.8; 1] (Some 0) [])
    (Some [2; 4; 8]) None 2 0.8 true
  = Raise (weighting_error 3).
Proof.
  apply (multiscale_bubblefind_rejects_other_scale_count
           Libm.hypot Libm.arccos Libm.arctan Sample.bbox Sample.areas
           Sample.same_image Sample.unfiltered Cases.two_peaks
           Sample.log_unused Sample.space_unused Sample.space_unused
           Sample.int_unused Sample.pow_unused
           Segment.six_steps Segment.flat_clip Segment.keep_fit Segment.no_display
           Sample.flat_image (Some [2; 4]) (Some 0) 2
           (Segment.mk_finder Sample.flat_image [2; 4] [0.8; 1] (Some 0) [])
           [2; 4; 8] None 0.1 2 0.8 true).
  - vm_compute. reflexivity.
  - cbn. lia.
  - reflexivity.
Defined.

Lemma multiscale_bubblefind_keeps_every_region_witness :
  exists self',
    Segment.multiscale_bubblefind
      Libm.hypot Libm.arccos Libm.arctan Sample.bbox Sample.areas
      Sample.same_image Sample.unfiltered Cases.two_peaks
      Sample.log_unused Sample.space_unused Sample.space_unused
      Sample.int_unused Sample.pow_unused
      Segment.flat_clip Segment.keep_fit Segment.no_display
      (Segment.mk_finder Sample.flat_image [2] [1] (Some 0) [])
      None None 2 0.8 true
    = Ok self'
    /\ Segment.regions self'
       = [[40; 50; 2 * sqrt 2; 2 * sqrt 2; 0; 0.95; 0];
          [3; 4; 2 * sqrt 2; 2 * sqrt 2; 0; 0.95; 0]]
    /\ Segment.regions self' <> [].
Proof.
  eexists. split; [vm_compute; reflexivity|]. split; [vm_compute; reflexivity|].
  refine (proj1 (proj2 (multiscale_bubblefind_keeps_every_region
           Libm.hypot Libm.arccos Libm.arctan Sample.bbox Sample.areas
           Sample.same_image Sample.unfiltered Cases.two_peaks
           Sample.log_unused Sample.space_unused Sample.space_unused
           Sample.int_unused Sample.pow_unused
           Segment.flat_clip Segment.keep_fit Segment.no_display
           (Segment.mk_finder Sample.flat_image [2] [1] (Some 0) [])
           None None 2 0.8 true _ _))).
  vm_compute. reflexivity.
Defined.

(* ================================================================== *)
(** ** The column names of the catalogue *)

Lemma py_in_In (name : string) (names : list string) :
  Catalog.py_in name names = true <-> In name names.
Proof.
  unfold Catalog.py_in. rewrite existsb_exists. split.
  - intros (x & Hx & He). apply String.eqb_eq in He. now subst.
  - intros H. exists name. split; [exact H | apply String.eqb_refl].
Qed.

Lemma py_in_incl (l1 l2 : list string) :
  forallb (fun n => Catalog.py_in n l2) l1 = true -> incl l1 l2.
Proof.
  intros H n Hn. apply py_in_In.
  exact (proj1 (forallb_forall _ _) H n Hn).
Qed.

(** The names [_check_given_column] accepts are the keys of [props] and
    [prop_funcs], the columns that [create_table] fills from the
    bubbles: a name passes the check exactly when [create_table] makes a
    column of that name from one of the two dictionaries.  The column
    ["closed_shell"], which [create_table] adds by hand, does not
    pass. *)
Theorem check_given_column_accepts_table_columns :
  (forall name,
      Catalog._check_given_column name = Ok tt
      <-> In name (Catalog.props ++ Catalog.prop_funcs))
  /\ Catalog._check_given_column "closed_shell"
     = Raise (ValueError "closed_shell is not a defined column name.").
Proof.
  split; [|reflexivity]. intros name.
  assert (H1 : incl Catalog.all_columns (Catalog.props ++ Catalog.prop_funcs))
    by (apply py_in_incl; vm_compute; reflexivity).
  assert (H2 : incl (Catalog.props ++ Catalog.prop_funcs) Catalog.all_columns)
    by (apply py_in_incl; vm_compute; reflexivity).
  unfold Catalog._check_given_column.
  destruct (Catalog.py_in name Catalog.all_columns) eqn:E; cbn [negb]; split.
  - intros _. apply H1, py_in_In, E.
  - reflexivity.
  - discriminate.
  - intros H. apply H2, py_in_In in H. congruence.
Qed.

Lemma corner_plot_columns_fails_at (pre : list string) (c : string)
      (post : list string) :
  Forall (fun n => In n Catalog.all_columns) pre ->
  ~ In c Catalog.all_columns ->
  Catalog.corner_plot_columns (pre ++ c :: post)
  = Raise (ValueError
             (if Catalog.py_in c Catalog.not_numerical
              then c ++ " is not numerical. Cannot plot."
              else c ++ " is not a defined column name.")%string).
Proof.
  intros Hpre Hc. unfold Catalog.corner_plot_columns.
  induction Hpre as [|n pre Hn Hpre IH]; cbn [app foldM].
  - destruct (Catalog.py_in c Catalog.not_numerical); [reflexivity|].
    unfold Catalog._check_given_column.
    destruct (Catalog.py_in c Catalog.all_columns) eqn:E; [|reflexivity].
    apply py_in_In in E. contradiction.
  - assert (Hnn : Catalog.py_in n Catalog.not_numerical = false).
    { destruct (Catalog.py_in n Catalog.not_numerical) eqn:E; [|reflexivity].
      apply py_in_In in E. cbn in E. destruct E as [<-|[]].
      apply py_in_In in Hn. vm_compute in Hn. discriminate Hn. }
    rewrite Hnn. unfold Catalog._check_given_column at 1.
    apply py_in_In in Hn. rewrite Hn. cbn [negb bind]. exact IH.
Qed.

(** [corner_plot] stops at the first column that is not a defined
    column name, whatever follows it, before it imports [corner] or
    reads the table: it raises [ValueError], with the message for a
    column that is not numerical when the name is ["col0"], and with the
    message of [_check_given_column] otherwise. *)
Theorem corner_plot_stops_at_first_unknown_column (pre : list string)
        (c : string) (post : list string) :
  Forall (fun n => In n Catalog.all_columns) pre ->
  ~ In c Catalog.all_columns ->
  Catalog.corner_plot_columns (pre ++ c :: post)
  = Raise (ValueError
             (if Catalog.py_in c Catalog.not_numerical
              then c ++ " is not numerical. Cannot plot."
              else c ++ " is not a defined column name.")%string).
Proof. exact (corner_plot_columns_fails_at pre c post). Qed.

Lemma corner_plot_stops_at_first_unknown_column_witness :
  Catalog.corner_plot_columns ["pa"; "tkin"; "col0"; "closed_shell"]%string
  = Raise (ValueError "col0 is not numerical. Cannot plot.").
Proof.
  apply (corner_plot_stops_at_first_unknown_column
           ["pa"; "tkin"]%string "col0"%string ["closed_shell"%string]).
  - repeat constructor; apply py_in_In; reflexivity.
  - intros H. apply py_in_In in H. discriminate H.
Defined.
